(** * The request pipeline of the DocuSign Alternative Python SDK

    A shallow embedding of [docusign_alternative_sdk/client.py] (class
    [DocuSignAlternativeSDK]): configuration validation, session set-up,
    [request] with its error translation, the convenience verbs,
    [upload_file] and the two auth mutators.

    Python objects are modelled as follows.
    - [str] is [string]; [str.lower], [str.upper], [str.lstrip] and
      [str.rstrip] are written out on the ASCII range.
    - a plain [dict] of headers is an insertion-ordered association list
      with unique keys ([PyDict]); dict objects live in a [heap] and are
      passed by reference, as in Python.
    - [requests.structures.CaseInsensitiveDict] is a [gmap] from the
      lower-cased key to the pair of the key as written and the value.
    - exceptions are the [Raise] branch of [Result].
    - [int / 1000] (true division) is a rational; float rounding is not
      modelled. *)

From Stdlib Require Import Ascii String ZArith QArith Qminmax Lqa.
From stdpp Require Import gmap strings list fin_maps.

Open Scope string_scope.

(* ===================================================================== *)
(** ** Strings *)

Module Str.

Definition slash : ascii := "/"%char.

Definition is_slash (c : ascii) : bool := bool_decide (c = slash).

(** [s.lstrip('/')]: drop every leading slash. *)
Fixpoint lstrip (s : string) : string :=
  match s with
  | EmptyString => EmptyString
  | String c s' => if is_slash c then lstrip s' else s
  end.

(** [s.rstrip('/')]: drop every trailing slash. *)
Fixpoint rstrip (s : string) : string :=
  match s with
  | EmptyString => EmptyString
  | String c s' =>
      match rstrip s' with
      | EmptyString => if is_slash c then EmptyString else String c EmptyString
      | r => String c r
      end
  end.

(** A run of [n] slashes. *)
Fixpoint slashes (n : nat) : string :=
  match n with
  | O => EmptyString
  | S n' => String slash (slashes n')
  end.

Definition starts_with_slash (s : string) : bool :=
  match s with
  | String c _ => is_slash c
  | EmptyString => false
  end.

Fixpoint ends_with_slash (s : string) : bool :=
  match s with
  | EmptyString => false
  | String c EmptyString => is_slash c
  | String _ s' => ends_with_slash s'
  end.

Definition lower_ascii (c : ascii) : ascii :=
  let n := nat_of_ascii c in
  if ((65 <=? n) && (n <=? 90))%nat then ascii_of_nat (n + 32) else c.

Definition upper_ascii (c : ascii) : ascii :=
  let n := nat_of_ascii c in
  if ((97 <=? n) && (n <=? 122))%nat then ascii_of_nat (n - 32) else c.

Fixpoint map (f : ascii -> ascii) (s : string) : string :=
  match s with
  | EmptyString => EmptyString
  | String c s' => String (f c) (map f s')
  end.

(** [s.lower()] and [s.upper()] on ASCII text (header names and HTTP
    methods are ASCII tokens). *)
Definition lower : string -> string := map lower_ascii.
Definition upper : string -> string := map upper_ascii.

(** Python truthiness of a [str]. *)
Definition truthy (s : string) : bool :=
  match s with EmptyString => false | _ => true end.

(** [s or d]. *)
Definition or_else (s d : string) : string := if truthy s then s else d.

End Str.

(** Line 138: [f"{self.config.base_url.rstrip('/')}/{url.lstrip('/')}"]. *)
Definition full_url (base_url url : string) : string :=
  Str.rstrip base_url +:+ "/" +:+ Str.lstrip url.

(* ===================================================================== *)
(** ** Python dictionaries and the heap they live in *)

(** A [dict] with [str] keys and [str] values, in insertion order; keys
    are unique. *)
Definition PyDict : Type := list (string * string).

Module Dict.

Definition truthy (d : PyDict) : bool :=
  match d with [] => false | _ => true end.

(** [k in d] *)
Definition contains (k : string) (d : PyDict) : bool :=
  existsb (fun kv => String.eqb kv.1 k) d.

(** [d.get(k)] *)
Fixpoint get (k : string) (d : PyDict) : option string :=
  match d with
  | [] => None
  | (k', v) :: d' => if String.eqb k' k then Some v else get k d'
  end.

(** [d.get(k, dflt)] *)
Definition get_default (k : string) (d : PyDict) (dflt : string) : string :=
  default dflt (get k d).

(** [d[k] = v]: an existing key keeps its position. *)
Fixpoint setitem (k v : string) (d : PyDict) : PyDict :=
  match d with
  | [] => [(k, v)]
  | (k', v') :: d' =>
      if String.eqb k' k then (k', v) :: d' else (k', v') :: setitem k v d'
  end.

(** [del d[k]] *)
Definition delitem (k : string) (d : PyDict) : PyDict :=
  filter (fun kv => kv.1 ≠ k) d.

(** [d.update(src)] *)
Definition update (d src : PyDict) : PyDict :=
  foldl (fun acc kv => setitem kv.1 kv.2 acc) d src.

End Dict.

(** [requests.structures.CaseInsensitiveDict]: the store is keyed by the
    lower-cased key and remembers the key as it was last written. *)
Module CIDict.

Definition t : Type := gmap string (string * string).

Definition empty : t := ∅.

Definition setitem (k v : string) (m : t) : t := <[Str.lower k := (k, v)]> m.

Definition get (k : string) (m : t) : option string := snd <$> m !! Str.lower k.

Definition contains (k : string) (m : t) : bool :=
  bool_decide (is_Some (m !! Str.lower k)).

Definition delitem (k : string) (m : t) : t := delete (Str.lower k) m.

Definition update (m : t) (src : PyDict) : t :=
  foldl (fun acc kv => setitem kv.1 kv.2 acc) m src.

End CIDict.

(** References to dict objects. *)
Abbreviation loc := positive (only parsing).

Abbreviation Heap := (gmap positive PyDict) (only parsing).

(** The address of a newly created object. *)
Definition fresh_loc (h : Heap) : loc := fresh (dom h : gset positive).

Definition deref (h : Heap) (l : loc) : PyDict := default [] (h !! l).

(* ===================================================================== *)
(** ** Values exchanged with the [requests] library *)

#[warnings="-register-all"]
Inductive JSON : Type :=
| JNull
| JBool (b : bool)
| JNum (n : Z)
| JStr (s : string)
| JArr (items : list JSON)
| JObj (fields : list (string * JSON)).

Fixpoint json_field (k : string) (fields : list (string * JSON)) : option JSON :=
  match fields with
  | [] => None
  | (k', v) :: rest => if String.eqb k' k then Some v else json_field k rest
  end.

(** What [request] observes of a [requests.Response]: [status_code],
    [headers], [text], and the outcome of [json()], where [None] stands
    for the [ValueError] raised on a body that is not JSON. *)
Record Response : Type := mkResponse {
  status_code : Z;
  resp_headers : CIDict.t;
  text : string;
  json : option JSON
}.

(** [Response.ok]: [raise_for_status] raises for 400 <= status < 600 and
    for nothing else. *)
Definition ok (r : Response) : bool :=
  negb ((400 <=? status_code r)%Z && (status_code r <? 600)%Z).

(** The exception classes of [requests.exceptions] that matter to the
    [except] clauses, and [Foreign] for an exception that is not a
    [RequestException]. *)
Inductive ExcClass : Type :=
| RequestException
| Timeout
| ConnectionError
| ConnectTimeout
| ReadTimeout
| ProxyError
| SSLError
| HTTPError
| TooManyRedirects
| RetryError
| InvalidURL
| Foreign.

(** The direct base classes, as declared in requests/exceptions.py. *)
Definition bases (c : ExcClass) : list ExcClass :=
  match c with
  | RequestException | Foreign => []
  | ConnectTimeout => [ConnectionError; Timeout]
  | ReadTimeout => [Timeout]
  | ProxyError | SSLError => [ConnectionError]
  | Timeout | ConnectionError | HTTPError | TooManyRedirects
  | RetryError | InvalidURL => [RequestException]
  end.

Global Instance ExcClass_eq_dec : EqDecision ExcClass.
Proof. solve_decision. Defined.

(** [issubclass c base]; the hierarchy is three levels deep. *)
Fixpoint issubclass_upto (fuel : nat) (c base : ExcClass) : bool :=
  bool_decide (c = base) ||
  match fuel with
  | O => false
  | S f => existsb (fun b => issubclass_upto f b base) (bases c)
  end.

Definition issubclass : ExcClass -> ExcClass -> bool := issubclass_upto 3.

Record Exc : Type := mkExc { exc_class : ExcClass; exc_str : string }.

Definition isinstance (x : Exc) (c : ExcClass) : bool := issubclass (exc_class x) c.

Inductive TransportOutcome : Type :=
| Responded (r : Response)
| Raised (x : Exc).

(** [urllib3.util.retry.Retry], with the four arguments the client sets. *)
Record Retry : Type := mkRetry {
  total : Z;
  backoff_factor : Q;
  status_forcelist : list Z;
  allowed_methods : list string
}.

(** The request as the session hands it to the adapter. *)
Record Outgoing : Type := mkOutgoing {
  o_method : string;
  o_url : string;
  o_headers : CIDict.t;
  o_params : option PyDict;
  o_data : option PyDict;
  o_json : option JSON;
  o_files : option PyDict;
  o_timeout : Q
}.

(* ===================================================================== *)
(** ** The SDK's own types *)

(** The error classes exported by the package ([__init__.py]). *)
Inductive ErrorKind : Type :=
| DocuSignAlternativeError
| AuthenticationError
| AuthorizationError
| ValidationError
| NotFoundError
| ConflictError
| RateLimitError
| ServerError.

Record TypedError : Type := mkTypedError {
  kind : ErrorKind;
  message : string;
  statusCode : Z;
  requestId : option string;
  retryable : bool
}.

Inductive Exn : Type :=
| ConfigurationError (msg : string)
| ApiError (e : TypedError)
| TimeoutError (msg : string)
| NetworkError (msg : string)
| Uncaught (x : Exc).

Inductive Result (A : Type) : Type :=
| Return (a : A)
| Raise (e : Exn).

Arguments Return {A} a.
Arguments Raise {A} e.

(** Modelled from the spec: the OAuth credential of config.py, which is
    not among the sources; the spec only says it is an object. *)
Record OAuthConfig : Type := mkOAuth { oauth_settings : PyDict }.

(** Modelled from the spec: the JWT credential of config.py; the client
    reads its [token]. *)
Record JWTConfig : Type := mkJWT { token : option string }.

(** Modelled from the spec: [SDKConfiguration] of config.py, with the
    attributes the client reads. An absent [base_url] is the empty
    string: [not config.base_url] treats [None] and [''] alike. *)
Record SDKConfiguration : Type := mkConfig {
  api_key : option string;
  oauth : option OAuthConfig;
  jwt : option JWTConfig;
  base_url : string;
  environment : option string;
  timeout : Z;
  retries : Z;
  retry_delay : Z
}.

Definition set_base_url (u : string) (c : SDKConfiguration) : SDKConfiguration :=
  mkConfig (api_key c) (oauth c) (jwt c) u (environment c)
           (timeout c) (retries c) (retry_delay c).

Definition set_api_key (k : option string) (c : SDKConfiguration) : SDKConfiguration :=
  mkConfig k (oauth c) (jwt c) (base_url c) (environment c)
           (timeout c) (retries c) (retry_delay c).

(** Truthiness of an optional string: [None] and [''] are falsy. *)
Definition truthy_str (o : option string) : bool :=
  match o with Some s => Str.truthy s | None => false end.

(** Truthiness of an optional object. *)
Definition truthy_obj {A : Type} (o : option A) : bool :=
  match o with Some _ => true | None => false end.

Record Session : Type := mkSession {
  session_headers : CIDict.t;
  max_retries : Retry
}.

Record Client : Type := mkClient {
  config : SDKConfiguration;
  session : Session
}.

(** What happens outside the client object: the heap of dict objects the
    caller and the client allocate, and the trace of sessions created and
    requests handed to the transport. *)
Inductive Event : Type :=
| SessionCreated
| Sent (o : Outgoing).

Record Env : Type := mkEnv {
  heap : Heap;
  trace : list Event
}.

(** The keyword arguments [request] names in its signature; [headers] is
    a reference to the caller's dict. Further keyword arguments, which
    the source passes on to the session untouched, are left out. *)
Record Kwargs : Type := mkKwargs {
  kw_data : option PyDict;
  kw_json : option JSON;
  kw_params : option PyDict;
  kw_headers : option loc;
  kw_files : option PyDict
}.

Definition no_kwargs : Kwargs := mkKwargs None None None None None.

(* ===================================================================== *)
(** ** The behaviour of [requests] and [urllib3] the client relies on

    These definitions follow the two libraries' sources
    (requests/sessions.py, requests/models.py, urllib3/util/retry.py);
    they are the transport the client talks to, not client code. *)

Module requests.

(** [requests.utils.default_headers()], the headers of a new [Session];
    the default user agent is written without its version, the client
    overwrites it. *)
Definition default_headers : CIDict.t :=
  CIDict.update CIDict.empty
    [("User-Agent", "python-requests"); ("Accept-Encoding", "gzip, deflate");
     ("Accept", "*/*"); ("Connection", "keep-alive")].

(** [merge_setting(request.headers, session.headers, CaseInsensitiveDict)]
    in [Session.prepare_request]: the session's headers, overlaid with the
    per-call ones. *)
Definition merge_setting (request_setting : PyDict) (session_setting : CIDict.t)
  : CIDict.t :=
  CIDict.update session_setting request_setting.

(** The content type [PreparedRequest.prepare_body] computes for the
    body: multipart for files, form encoding for a data mapping, JSON
    for a [json] argument without data. *)
Definition body_content_type (boundary : string)
    (data : option PyDict) (json_arg : option JSON) (files : option PyDict)
  : option string :=
  if truthy_obj files && Dict.truthy (default [] files)
  then Some ("multipart/form-data; boundary=" +:+ boundary)
  else if truthy_obj data && Dict.truthy (default [] data)
  then Some "application/x-www-form-urlencoded"
  else if truthy_obj json_arg then Some "application/json"
  else None.

(** [prepare_body], last step: "Add content-type if it wasn't explicitly
    provided": [if content_type and ("content-type" not in self.headers)]. *)
Definition add_content_type (content_type : option string) (hs : CIDict.t)
  : CIDict.t :=
  match content_type with
  | Some ct =>
      if Str.truthy ct && negb (CIDict.contains "content-type" hs)
      then CIDict.setitem "Content-Type" ct hs
      else hs
  | None => hs
  end.

(** [Retry.increment]: one retry is used up. *)
Definition increment (r : Retry) : Retry :=
  mkRetry (total r - 1) (backoff_factor r) (status_forcelist r) (allowed_methods r).

(** [Retry.is_exhausted]: some counter fell below zero. *)
Definition is_exhausted (r : Retry) : bool := (total r <? 0)%Z.

(** The number of times the adapter sends one request when every attempt
    fails in a retryable way: after each failure [urlopen] calls
    [increment] and gives up once the new [Retry] is exhausted. *)
Fixpoint sends_when_all_fail (fuel : nat) (r : Retry) : nat :=
  match fuel with
  | O => O
  | S fuel' =>
      let r' := increment r in
      if is_exhausted r' then 1%nat else S (sends_when_all_fail fuel' r')
  end.

(** [Retry._is_method_retryable] *)
Definition _is_method_retryable (r : Retry) (method : string) : bool :=
  match allowed_methods r with
  | [] => true
  | ms => bool_decide (Str.upper method ∈ ms)
  end.

Definition RETRY_AFTER_STATUS_CODES : list Z := [413; 429; 503]%Z.

(** [Retry.is_retry(method, status_code, has_retry_after)] *)
Definition is_retry (r : Retry) (method : string) (status : Z)
    (has_retry_after : bool) : bool :=
  if negb (_is_method_retryable r method) then false
  else if bool_decide (status ∈ status_forcelist r) then true
  else negb (total r =? 0)%Z && has_retry_after
       && bool_decide (status ∈ RETRY_AFTER_STATUS_CODES).

Definition DEFAULT_BACKOFF_MAX : Q := 120.

(** [Retry.get_backoff_time], in seconds, after [consecutive_errors_len]
    failed attempts in a row. *)
Definition get_backoff_time (r : Retry) (consecutive_errors_len : nat) : Q :=
  if (consecutive_errors_len <=? 1)%nat then 0%Q
  else Qmin DEFAULT_BACKOFF_MAX
         (backoff_factor r * inject_Z (2 ^ (Z.of_nat consecutive_errors_len - 1)))%Q.

End requests.

(* ===================================================================== *)
(** ** The error taxonomy *)

(** Modelled from the spec: the status-to-kind table of
    [create_error_from_response] (exceptions.py is not among the
    sources), §4.4: 401, 403, 400/422, 404, 409, 429, 5xx, anything else. *)
Definition kind_of_status (s : Z) : ErrorKind :=
  if (s =? 401)%Z then AuthenticationError
  else if (s =? 403)%Z then AuthorizationError
  else if ((s =? 400) || (s =? 422))%Z then ValidationError
  else if (s =? 404)%Z then NotFoundError
  else if (s =? 409)%Z then ConflictError
  else if (s =? 429)%Z then RateLimitError
  else if ((500 <=? s) && (s <? 600))%Z then ServerError
  else DocuSignAlternativeError.

(** Modelled from the spec: the [retryable] flag of §4.4, true only for
    429 and 5xx. *)
Definition retryable_status (s : Z) : bool :=
  ((s =? 429) || ((500 <=? s) && (s <? 600)))%Z.

(** Modelled from the spec: the message of §4.4, the body's [message]
    field, else a generic description. *)
Definition message_of (generic : string) (error_data : JSON) : string :=
  match error_data with
  | JObj fields =>
      match json_field "message" fields with
      | Some (JStr m) => m
      | _ => generic
      end
  | _ => generic
  end.

(** Modelled from the spec: [create_error_from_response(status_code,
    error_data, request_id)] of exceptions.py, the pure function of §4.4. *)
Definition create_error_from_response (generic : Z -> string)
    (status : Z) (error_data : JSON) (request_id : option string) : TypedError :=
  mkTypedError (kind_of_status status) (message_of (generic status) error_data)
               status request_id (retryable_status status).

(* ===================================================================== *)
(** ** The client *)

Module DocuSignAlternativeSDK.

Definition base_urls : PyDict :=
  [("development", "https://api-dev.docusign-alternative.com");
   ("staging", "https://api-staging.docusign-alternative.com");
   ("production", "https://api.docusign-alternative.com")].

(** [base_urls.get(config.environment, base_urls["production"])]; a key
    that is [None] is in no dict of strings. *)
Definition resolve_base_url (env : option string) : string :=
  let production := Dict.get_default "production" base_urls "" in
  match env with
  | Some e => Dict.get_default e base_urls production
  | None => production
  end.

(** Lines 62-75. *)
Definition _validate_config (config : SDKConfiguration) : Result SDKConfiguration :=
  if negb (truthy_str (api_key config)) && negb (truthy_obj (oauth config))
     && negb (truthy_obj (jwt config))
  then Raise (ConfigurationError "API key, OAuth configuration, or JWT token is required")
  else if negb (Str.truthy (base_url config))
  then Return (set_base_url (resolve_base_url (environment config)) config)
  else Return config.

Definition append_event (ev : Event) (e : Env) : Env :=
  mkEnv (heap e) (trace e ++ [ev]).

(** Lines 77-106. *)
Definition _create_session (cfg : SDKConfiguration) (e : Env) : Session * Env :=
  let headers0 :=
    CIDict.update requests.default_headers
      [("Content-Type", "application/json");
       ("User-Agent", "DocuSignAlternative-Python-SDK/1.0.0");
       ("Accept", "application/json")] in
  let headers1 :=
    if truthy_str (api_key cfg)
    then CIDict.setitem "Authorization" ("Bearer " +:+ default "" (api_key cfg)) headers0
    else match jwt cfg with
         | Some j =>
             if truthy_str (token j)
             then CIDict.setitem "Authorization" ("Bearer " +:+ default "" (token j)) headers0
             else headers0
         | None => headers0
         end in
  let retry_strategy :=
    mkRetry (retries cfg) (inject_Z (retry_delay cfg) / 1000)%Q
            [429; 500; 502; 503; 504]%Z
            ["HEAD"; "GET"; "PUT"; "DELETE"; "OPTIONS"; "TRACE"; "POST"] in
  (mkSession headers1 retry_strategy, append_event SessionCreated e).

(** Lines 38-49; the dict form of the configuration is normalised by
    the [SDKConfiguration] constructor before this point, and the service
    facades of lines 51-60 only keep a reference to the client. *)
Definition __init__ (config : SDKConfiguration) (e : Env) : Result Client * Env :=
  match _validate_config config with
  | Raise x => (Raise x, e)
  | Return cfg =>
      let '(s, e') := _create_session cfg e in
      (Return (mkClient cfg s), e')
  end.

Definition store (l : loc) (d : PyDict) (e : Env) : Env :=
  mkEnv (<[l := d]> (heap e)) (trace e).

Section Pipeline.

(** The network: what comes back for a request handed to the adapter. *)
Variable send : Outgoing -> TransportOutcome.

(** The multipart boundary the transport picks. *)
Variable boundary : string.

(** Modelled from the spec: the generic description §4.4 falls back to
    when the error body has no message. *)
Variable generic_description : Z -> string.

(** [self.session.request(method, url, data, json, params, headers,
    files, timeout)]: merge the headers, prepare the body, send. [send]
    is the transport of the session, whatever it is; the one the client
    itself mounts is [Session_send (session self)], defined further
    down from the session's [max_retries]. *)
Definition session_request (s : Session) (method url : string)
    (data : option PyDict) (json_arg : option JSON) (params : option PyDict)
    (headers : PyDict) (files : option PyDict) (timeout_s : Q) (e : Env)
  : TransportOutcome * Env :=
  let merged := requests.merge_setting headers (session_headers s) in
  let prepared :=
    requests.add_content_type
      (requests.body_content_type boundary data json_arg files) merged in
  let out := mkOutgoing method url prepared params data json_arg files timeout_s in
  (send out, append_event (Sent out) e).

(** Lines 108-183. The result is what the call returns or raises, the
    client object after the call, and the environment after the call. *)
Definition request (self : Client) (method url : string) (kw : Kwargs) (e : Env)
  : Result Response * Client * Env :=
  let full_url := full_url (base_url (config self)) url in
  (* request_headers = {} *)
  let request_headers : loc := fresh_loc (heap e) in
  let e := store request_headers [] e in
  (* if headers: request_headers.update(headers) *)
  let e :=
    match kw_headers kw with
    | Some headers =>
        if Dict.truthy (deref (heap e) headers)
        then store request_headers
               (Dict.update (deref (heap e) request_headers) (deref (heap e) headers)) e
        else e
    | None => e
    end in
  (* if files: if "Content-Type" in request_headers: del ... *)
  let e :=
    if truthy_obj (kw_files kw) && Dict.truthy (default [] (kw_files kw))
    then if Dict.contains "Content-Type" (deref (heap e) request_headers)
         then store request_headers
                (Dict.delitem "Content-Type" (deref (heap e) request_headers)) e
         else e
    else e in
  let '(outcome, e) :=
    session_request (session self) (Str.upper method) full_url
      (kw_data kw) (kw_json kw) (kw_params kw)
      (deref (heap e) request_headers) (kw_files kw)
      (inject_Z (timeout (config self)) / 1000)%Q e in
  (match outcome with
   | Responded response =>
       if negb (ok response) then
         let request_id := CIDict.get "x-request-id" (resp_headers response) in
         let error_data :=
           match json response with
           | Some parsed => parsed
           | None => JObj [("message", JStr (Str.or_else (text response) "Unknown error"))]
           end in
         Raise (ApiError (create_error_from_response generic_description
                            (status_code response) error_data request_id))
       else Return response
   | Raised x =>
       if isinstance x Timeout
       then Raise (TimeoutError "Request timeout")
       else if isinstance x ConnectionError
       then Raise (NetworkError ("Network error: " +:+ exc_str x))
       else if isinstance x RequestException
       then Raise (NetworkError ("Request error: " +:+ exc_str x))
       else Raise (Uncaught x)
   end, self, e).

(** Lines 185-203. *)
Definition get (self : Client) (url : string) (kw : Kwargs) :=
  request self "GET" url kw.

Definition post (self : Client) (url : string) (kw : Kwargs) :=
  request self "POST" url kw.

Definition put (self : Client) (url : string) (kw : Kwargs) :=
  request self "PUT" url kw.

Definition patch (self : Client) (url : string) (kw : Kwargs) :=
  request self "PATCH" url kw.

Definition delete (self : Client) (url : string) (kw : Kwargs) :=
  request self "DELETE" url kw.

(** Lines 205-230: [files = {"file": file_data}],
    [data = additional_data or {}], [self.post(url, files=files, data=data)]. *)
Definition upload_file (self : Client) (url : string) (file_data : string)
    (additional_data : option PyDict) :=
  let files := [("file", file_data)] in
  let data :=
    match additional_data with
    | Some d => if Dict.truthy d then d else []
    | None => []
    end in
  post self url (mkKwargs (Some data) None None None (Some files)).

End Pipeline.

(** Lines 232-235. *)
Definition set_auth_token (self : Client) (token : string) : Client :=
  mkClient (set_api_key (Some token) (config self))
           (mkSession
              (CIDict.setitem "Authorization" ("Bearer " +:+ token)
                 (session_headers (session self)))
              (max_retries (session self))).

(** Lines 237-241. *)
Definition clear_auth (self : Client) : Client :=
  mkClient (set_api_key None (config self))
           (mkSession
              (if CIDict.contains "Authorization" (session_headers (session self))
               then CIDict.delitem "Authorization" (session_headers (session self))
               else session_headers (session self))
              (max_retries (session self))).

End DocuSignAlternativeSDK.

(* ===================================================================== *)
(** ** Observations on a call *)

Definition result_of {A : Type} (x : Result A * Client * Env) : Result A := x.1.1.
Definition client_of {A : Type} (x : Result A * Client * Env) : Client := x.1.2.
Definition env_of {A : Type} (x : Result A * Client * Env) : Env := x.2.

(** The request most recently handed to the transport. *)
Definition last_sent (e : Env) : option Outgoing :=
  match last (trace e) with
  | Some (Sent o) => Some o
  | _ => None
  end.

(** The value of header [name] on the last request sent. *)
Definition sent_header (name : string) (e : Env) : option string :=
  match last_sent e with
  | Some o => CIDict.get name (o_headers o)
  | None => None
  end.

(** The keys of a dict. *)
Definition keys (d : PyDict) : list string := d.*1.

(** The dict the caller passes as [headers], if any. *)
Definition call_headers (kw : Kwargs) (e : Env) : PyDict :=
  match kw_headers kw with
  | Some l => deref (heap e) l
  | None => []
  end.

(** A call leaves the client's configuration, the session's default
    headers and every dict object that existed before the call as they
    were. *)
Definition unchanged_by {A : Type} (self : Client) (e : Env)
    (res : Result A * Client * Env) : Prop :=
  config (client_of res) = config self
  /\ session_headers (session (client_of res)) = session_headers (session self)
  /\ forall l : loc, l ∈ dom (heap e) -> heap (env_of res) !! l = heap e !! l.

(** What the transport answered to the last request sent. *)
Definition transport_reply (send : Outgoing -> TransportOutcome) (e : Env)
  : option TransportOutcome :=
  send <$> last_sent e.

(* ===================================================================== *)
(** ** Sample data *)

Module Sample.

Definition cfg : SDKConfiguration :=
  mkConfig (Some "key-123") None None "https://api.example.com/" (Some "production")
           30000 3 1000.

Definition env : Env := mkEnv ∅ [].

(** The client [DocuSignAlternativeSDK(cfg)] builds. *)
Definition client : Client :=
  mkClient cfg (DocuSignAlternativeSDK._create_session cfg env).1.

Definition env1 : Env := (DocuSignAlternativeSDK._create_session cfg env).2.

Definition generic (status : Z) : string := "API error".

Definition resp_200 : Response :=
  mkResponse 200 (CIDict.setitem "Content-Type" "application/json" CIDict.empty)
             "[]" (Some (JArr [])).

Definition resp_304 : Response := mkResponse 304 CIDict.empty "" None.

(** The double quote, for writing JSON text. *)
Definition dq : string := String (ascii_of_nat 34) EmptyString.

(** Status 404 with the body [{"message":"not found"}] and the header
    [X-Request-Id: abc123]. *)
Definition resp_404 : Response :=
  mkResponse 404 (CIDict.setitem "X-Request-Id" "abc123" CIDict.empty)
             ("{" +:+ dq +:+ "message" +:+ dq +:+ ":" +:+ dq +:+ "not found" +:+ dq +:+ "}")
             (Some (JObj [("message", JStr "not found")])).

Definition resp_502 : Response := mkResponse 502 CIDict.empty "Bad Gateway" None.

Definition answer (r : Response) (o : Outgoing) : TransportOutcome := Responded r.

Definition fail (c : ExcClass) (description : string) (o : Outgoing)
  : TransportOutcome :=
  Raised (mkExc c description).



End Sample.

(* ===================================================================== *)
(** ** Further observations *)

(** The test [if files:] of line 145. *)
Definition files_truthy (kw : Kwargs) : bool :=
  truthy_obj (kw_files kw) && Dict.truthy (default [] (kw_files kw)).

(** A credential that passes the test of line 64. *)
Definition has_credential (c : SDKConfiguration) : bool :=
  truthy_str (api_key c) || truthy_obj (oauth c) || truthy_obj (jwt c).

(** The classes the three [except] clauses of lines 175-183 catch. *)
Definition timeout_classes : list ExcClass := [Timeout; ReadTimeout; ConnectTimeout].
Definition connection_classes : list ExcClass := [ConnectionError; ProxyError; SSLError].
Definition other_request_classes : list ExcClass :=
  [RequestException; HTTPError; TooManyRedirects; RetryError; InvalidURL].

(* ===================================================================== *)
(** ** The packaging script, setup.py *)

Module setup.

(** The ASCII characters [str.strip()] removes: tab to carriage return,
    the four separators 28 to 31, and the space. *)
Definition is_space (c : ascii) : bool :=
  let n := nat_of_ascii c in
  (((9 <=? n) && (n <=? 13)) || ((28 <=? n) && (n <=? 32)))%nat.

Fixpoint lstrip (s : string) : string :=
  match s with
  | EmptyString => EmptyString
  | String c s' => if is_space c then lstrip s' else s
  end.

Fixpoint rstrip (s : string) : string :=
  match s with
  | EmptyString => EmptyString
  | String c s' =>
      match rstrip s' with
      | EmptyString => if is_space c then EmptyString else String c EmptyString
      | r => String c r
      end
  end.

(** [line.strip()] *)
Definition strip (s : string) : string := rstrip (lstrip s).

(** [line.startswith("#")] *)
Definition startswith_hash (line : string) : bool :=
  match line with
  | String c _ => bool_decide (c = "#"%char)
  | EmptyString => false
  end.

Definition starts_with_space (s : string) : bool :=
  match s with
  | String c _ => is_space c
  | EmptyString => false
  end.

Fixpoint ends_with_space (s : string) : bool :=
  match s with
  | EmptyString => false
  | String c EmptyString => is_space c
  | String _ s' => ends_with_space s'
  end.

(** Lines 8-9: [[line.strip() for line in fh
    if line.strip() and not line.startswith("#")]], over the lines of
    requirements.txt as the file object yields them. *)
Definition requirements (lines : list string) : list string :=
  strip <$> List.filter
              (fun line => Str.truthy (strip line) && negb (startswith_hash line))
              lines.

End setup.

(* ===================================================================== *)
(** ** More sample data *)

Module Cases.

Definition tab : string := String (ascii_of_nat 9) EmptyString.
Definition newline : string := String (ascii_of_nat 10) EmptyString.

Definition requirements_txt : list string :=
  ["# runtime" +:+ newline; "requests>=2.28.0" +:+ newline; newline;
   "  urllib3>=1.26.0  " +:+ newline; tab +:+ "# pinned below" +:+ newline;
   "pydantic>=2.0.0"].

Definition cfg_oauth : SDKConfiguration :=
  mkConfig None (Some (mkOAuth [("client_id", "abc")])) None "" None 30000 3 1000.


Definition cfg_both : SDKConfiguration :=
  mkConfig (Some "key-123") None (Some (mkJWT (Some "jwt-1"))) "" (Some "staging")
           30000 3 1000.

(** The caller's dicts: a lower-case content type at address 1, the
    exact [Content-Type] key at address 2, a user agent at address 3. *)
Definition env : Env :=
  mkEnv (<[1%positive := [("content-type", "text/plain")]]>
           (<[2%positive := [("Content-Type", "text/plain"); ("X-Trace", "t1")]]>
              (<[3%positive := [("user-agent", "probe/1")]]> ∅)))
        (trace Sample.env1).

Definition kw_upload (headers : positive) : Kwargs :=
  mkKwargs None None None (Some headers) (Some [("file", "%PDF-1.7")]).

Definition kw_headers_only (headers : positive) : Kwargs :=
  mkKwargs None None None (Some headers) None.

End Cases.

(* ===================================================================== *)
(** ** The adapter the session mounts

    [_create_session] mounts [HTTPAdapter(max_retries=retry_strategy)] on
    the session, so every request of the session goes through urllib3's
    [urlopen] under that [Retry]. The definitions follow
    urllib3/connectionpool.py, urllib3/util/retry.py and
    requests/adapters.py; redirects are not followed here. *)

Module urllib3.

(** The errors one attempt can end in: the connection was not set up in
    time, could not be set up at all (name resolution, refusal), the
    answer did not come in time, or the connection broke. *)
Inductive WireError : Type :=
| ConnectTimeoutError (d : string)
| NewConnectionError (d : string)
| ReadTimeoutError (d : string)
| ProtocolError (d : string).

Definition wire_str (err : WireError) : string :=
  match err with
  | ConnectTimeoutError d | NewConnectionError d
  | ReadTimeoutError d | ProtocolError d => d
  end.

(** What one attempt on the wire ends in. *)
Inductive Attempt : Type :=
| Answered (r : Response)
| Failed (err : WireError).

(** [Retry._is_connection_error]: [NewConnectionError] is a subclass of
    [ConnectTimeoutError]. *)
Definition _is_connection_error (err : WireError) : bool :=
  match err with
  | ConnectTimeoutError _ | NewConnectionError _ => true
  | ReadTimeoutError _ | ProtocolError _ => false
  end.

(** [Retry._is_read_error] *)
Definition _is_read_error (err : WireError) : bool :=
  match err with
  | ReadTimeoutError _ | ProtocolError _ => true
  | ConnectTimeoutError _ | NewConnectionError _ => false
  end.

(** The reason a [MaxRetryError] carries: the last error, or a
    [ResponseError] about the last status. *)
Inductive Reason : Type :=
| BecauseOf (err : WireError)
| ResponseError (status : Z).

(** How [urlopen] ends: with a response, with [MaxRetryError], or with
    the attempt's own error raised again. *)
Inductive Urlopen : Type :=
| Opened (r : Response)
| MaxRetryError (reason : Reason)
| Reraised (err : WireError).

(** What the adapter does, in order: attempt number [n] under a timeout,
    and the pause [Retry.sleep] makes before the next attempt, which is
    the response's Retry-After value when it carries a positive one and
    the backoff otherwise. *)
Inductive AdapterEvent : Type :=
| Attempted (n : nat) (timeout_s : Q)
| Slept (retry_after : option string) (backoff : Q).

(** [Retry._sleep_backoff] after [history_len] attempts: a backoff of
    zero or less is not slept. *)
Definition _sleep_backoff (r : Retry) (history_len : nat) : Q :=
  let backoff := requests.get_backoff_time r history_len in
  if Qle_bool backoff 0 then 0%Q else backoff.

(** One round of [urlopen]: [inl] when it ends there (a response that is
    not to be retried, or a read error on a method that is not
    retryable, raised again), [inr] when [Retry.increment] is called. *)
Definition decide_attempt (retries : Retry) (method : string) (a : Attempt)
  : Urlopen + (Reason * option string) :=
  match a with
  | Failed err =>
      if _is_connection_error err then inr (BecauseOf err, None)
      else if negb (requests._is_method_retryable retries method)
      then inl (Reraised err)
      else inr (BecauseOf err, None)
  | Answered r =>
      let retry_after := CIDict.get "Retry-After" (resp_headers r) in
      if requests.is_retry retries method (status_code r) (truthy_str retry_after)
      then inr (ResponseError (status_code r), retry_after)
      else inl (Opened r)
  end.

(** [urlopen] from attempt [n] on, with the events it goes through.
    [budget] bounds the rounds left; [urlopen] below passes the total of
    the policy, which is never used up before the policy is exhausted. *)
Fixpoint urlopen_go (budget : nat) (network : nat -> Attempt) (method : string)
    (timeout_s : Q) (retries : Retry) (n : nat) : Urlopen * list AdapterEvent :=
  let tried := Attempted n timeout_s in
  match decide_attempt retries method (network n) with
  | inl outcome => (outcome, [tried])
  | inr (reason, retry_after) =>
      let new_retry := requests.increment retries in
      if requests.is_exhausted new_retry then (MaxRetryError reason, [tried])
      else match budget with
           | O => (MaxRetryError reason, [tried])
           | S budget' =>
               let '(outcome, log) :=
                 urlopen_go budget' network method timeout_s new_retry (S n) in
               (outcome, tried :: Slept retry_after (_sleep_backoff new_retry (S n)) :: log)
           end
  end.

Definition urlopen (retries : Retry) (network : nat -> Attempt) (method : string)
    (timeout_s : Q) : Urlopen * list AdapterEvent :=
  urlopen_go (Z.to_nat (total retries)) network method timeout_s retries 0.

(** The timeouts of the attempts made, in order. *)
Definition attempt_timeouts (log : list AdapterEvent) : list Q :=
  omap (fun ev => match ev with Attempted _ t => Some t | Slept _ _ => None end) log.

(** The backoffs computed for the pauses made, in order. *)
Definition backoffs (log : list AdapterEvent) : list Q :=
  omap (fun ev => match ev with Slept _ b => Some b | Attempted _ _ => None end) log.

(** An attempt the policy answers with a retry whatever is left of its
    total: a connection error, a read error on a retryable method, or a
    response to a retryable method with a status of the force list. *)
Definition retryable_failure (r : Retry) (method : string) (a : Attempt) : bool :=
  match a with
  | Failed err => _is_connection_error err || requests._is_method_retryable r method
  | Answered resp =>
      requests._is_method_retryable r method
      && bool_decide (status_code resp ∈ status_forcelist r)
  end.

(** A response the policy never retries: its status is outside the
    force list and it carries no Retry-After header. *)
Definition final_answer (r : Retry) (resp : Response) : bool :=
  negb (bool_decide (status_code resp ∈ status_forcelist r))
  && negb (truthy_str (CIDict.get "Retry-After" (resp_headers resp))).

End urllib3.

Module HTTPAdapter.

(** The text of a [MaxRetryError], abridged: the library's text starts
    with the name of the connection pool, gives the path of the URL, and
    shows the cause by its repr. The claims below depend on the class of
    the exception and on the prefix [request] puts before its text, not
    on this text. *)
Definition max_retry_str (url cause : string) : string :=
  "Max retries exceeded with url: " +:+ url +:+ " (Caused by " +:+ cause +:+ ")".

(** [HTTPAdapter.send]: [urlopen] under the adapter's [max_retries] and
    the request's timeout, and the translation of what it raises into
    the exceptions of [requests]. *)
Definition send (max_retries : Retry) (network : Outgoing -> nat -> urllib3.Attempt)
    (out : Outgoing) : TransportOutcome :=
  match (urllib3.urlopen max_retries (network out) (o_method out) (o_timeout out)).1 with
  | urllib3.Opened r => Responded r
  | urllib3.MaxRetryError (urllib3.BecauseOf (urllib3.ConnectTimeoutError d)) =>
      Raised (mkExc ConnectTimeout (max_retry_str (o_url out) d))
  | urllib3.MaxRetryError (urllib3.ResponseError status) =>
      Raised (mkExc RetryError (max_retry_str (o_url out) "too many error responses"))
  | urllib3.MaxRetryError (urllib3.BecauseOf err) =>
      Raised (mkExc ConnectionError (max_retry_str (o_url out) (urllib3.wire_str err)))
  | urllib3.Reraised (urllib3.ProtocolError d) => Raised (mkExc ConnectionError d)
  | urllib3.Reraised (urllib3.ReadTimeoutError d) => Raised (mkExc ReadTimeout d)
  | urllib3.Reraised err => Raised (mkExc Foreign (urllib3.wire_str err))
  end.

(** The attempts and pauses [send] goes through for a request. *)
Definition events (max_retries : Retry) (network : Outgoing -> nat -> urllib3.Attempt)
    (out : Outgoing) : list urllib3.AdapterEvent :=
  (urllib3.urlopen max_retries (network out) (o_method out) (o_timeout out)).2.

End HTTPAdapter.

(** The transport of a session as [_create_session] sets it up: the
    adapter mounted with the session's [max_retries], over the network. *)
Definition Session_send (s : Session) (network : Outgoing -> nat -> urllib3.Attempt)
  : Outgoing -> TransportOutcome :=
  HTTPAdapter.send (max_retries s) network.

(* ===================================================================== *)
(** ** Networks and clients for the examples *)

Module Wire.

(** Every attempt ends the same way. *)
Definition always (a : urllib3.Attempt) (o : Outgoing) (n : nat) : urllib3.Attempt := a.

(** The first [k] attempts fail with [err], the next one is answered. *)
Definition fail_then (k : nat) (err : urllib3.WireError) (r : Response)
    (o : Outgoing) (n : nat) : urllib3.Attempt :=
  if (n <? k)%nat then urllib3.Failed err else urllib3.Answered r.

Definition resp_503 : Response := mkResponse 503 CIDict.empty "Service Unavailable" None.

Definition read_timeout : urllib3.WireError := urllib3.ReadTimeoutError "Read timed out.".
Definition connect_timeout : urllib3.WireError :=
  urllib3.ConnectTimeoutError "Connection timed out.".
Definition refused : urllib3.WireError := urllib3.NewConnectionError "Connection refused".

(** A GET as [Sample.client] dispatches it. *)
Definition get_documents : Outgoing :=
  mkOutgoing "GET" "https://api.example.com/v1/documents" CIDict.empty
             None None None None (inject_Z 30000 / 1000)%Q.



End Wire.

(* ===================================================================== *)
(** ** Facts about stripping *)

Section StripFacts.

Lemma lstrip_no_leading_slash (s : string) :
  Str.starts_with_slash (Str.lstrip s) = false.
Proof.
  induction s as [|c s IH]; simpl; [reflexivity|].
  destruct (Str.is_slash c) eqn:E; [exact IH|].
  simpl. exact E.
Qed.

Lemma lstrip_decompose (s : string) :
  exists n, s = Str.slashes n +:+ Str.lstrip s.
Proof.
  induction s as [|c s [n IH]]; simpl.
  - exists O. reflexivity.
  - destruct (Str.is_slash c) eqn:E.
    + exists (S n). unfold Str.is_slash in E.
      apply bool_decide_eq_true in E. subst c.
      change (String Str.slash s = String Str.slash (Str.slashes n +:+ Str.lstrip s)).
      f_equal. exact IH.
    + exists O. reflexivity.
Qed.

Lemma rstrip_no_trailing_slash (s : string) :
  Str.ends_with_slash (Str.rstrip s) = false.
Proof.
  induction s as [|c s IH]; simpl; [reflexivity|].
  destruct (Str.rstrip s) as [|d r] eqn:E.
  - destruct (Str.is_slash c) eqn:Ec; simpl; [reflexivity | exact Ec].
  - simpl in *. exact IH.
Qed.

Lemma rstrip_decompose (s : string) :
  exists n, s = Str.rstrip s +:+ Str.slashes n.
Proof.
  induction s as [|c s [n IH]]; simpl.
  - exists O. reflexivity.
  - destruct (Str.rstrip s) as [|d r] eqn:E.
    + simpl in IH. destruct (Str.is_slash c) eqn:Ec.
      * exists (S n). unfold Str.is_slash in Ec.
        apply bool_decide_eq_true in Ec. subst c.
        change (String Str.slash s = String Str.slash (Str.slashes n)).
        f_equal. exact IH.
      * exists n.
        change (String c s = String c (Str.slashes n)).
        f_equal. exact IH.
    + exists n.
      change (String c s = String c (String d r +:+ Str.slashes n)).
      f_equal. exact IH.
Qed.

End StripFacts.

Lemma full_url_one_separating_slash (base_url url : string) :
  exists (b p : string) (n m : nat),
    full_url base_url url = b +:+ "/" +:+ p
    /\ base_url = b +:+ Str.slashes n
    /\ url = Str.slashes m +:+ p
    /\ Str.ends_with_slash b = false
    /\ Str.starts_with_slash p = false.
Proof.
  destruct (rstrip_decompose base_url) as [n Hn].
  destruct (lstrip_decompose url) as [m Hm].
  exists (Str.rstrip base_url), (Str.lstrip url), n, m.
  split; [reflexivity|].
  split; [exact Hn|].
  split; [exact Hm|].
  split; [apply rstrip_no_trailing_slash | apply lstrip_no_leading_slash].
Qed.

Example full_url_examples :
  full_url "https://api.example.com" "/v1/documents" = "https://api.example.com/v1/documents"
  /\ full_url "https://api.example.com/" "/v1/documents" = "https://api.example.com/v1/documents"
  /\ full_url "https://api.example.com//" "v1/documents" = "https://api.example.com/v1/documents"
  /\ full_url "https://api.example.com" "v1/documents" = "https://api.example.com/v1/documents".
Proof. repeat split. Qed.

(* ===================================================================== *)
(** ** Facts about dictionaries *)

Section DictFacts.

Lemma keys_setitem (k v k0 : string) (d : PyDict) :
  k0 ∈ keys (Dict.setitem k v d) -> k0 = k \/ k0 ∈ keys d.
Proof.
  unfold keys. induction d as [|[k' v'] d IH]; simpl.
  - intros H. apply list_elem_of_singleton in H. left. exact H.
  - destruct (String.eqb k' k) eqn:E; simpl; intros H.
    + right. exact H.
    + apply elem_of_cons in H. destruct H as [->|H].
      * right. apply elem_of_cons. left. reflexivity.
      * destruct (IH H) as [->|H']; [left; reflexivity|].
        right. apply elem_of_cons. right. exact H'.
Qed.

Lemma keys_update (src acc : PyDict) (k0 : string) :
  k0 ∈ keys (Dict.update acc src) -> k0 ∈ keys acc \/ k0 ∈ keys src.
Proof.
  unfold Dict.update. revert acc.
  induction src as [|[k v] src IH]; simpl; intros acc H.
  - left. exact H.
  - destruct (IH _ H) as [H'|H'].
    + destruct (keys_setitem _ _ _ _ H') as [->|H''].
      * right. unfold keys. simpl. apply elem_of_cons. left. reflexivity.
      * left. exact H''.
    + right. unfold keys. simpl. apply elem_of_cons. right. exact H'.
Qed.

Lemma keys_delitem (k k0 : string) (d : PyDict) :
  k0 ∈ keys (Dict.delitem k d) -> k0 ∈ keys d /\ k0 <> k.
Proof.
  unfold keys, Dict.delitem. intros H.
  apply list_elem_of_fmap in H. destruct H as [[k1 v1] [-> H]].
  apply list_elem_of_filter in H. destruct H as [Hne Hin]. simpl in *.
  split; [|exact Hne].
  apply list_elem_of_fmap. exists (k1, v1). split; [reflexivity | exact Hin].
Qed.

Lemma ci_update_lookup (src : PyDict) (m : CIDict.t) (key : string) :
  (forall k, k ∈ keys src -> Str.lower k <> key) ->
  CIDict.update m src !! key = m !! key.
Proof.
  unfold CIDict.update. revert m.
  induction src as [|[k v] src IH]; simpl; intros m H; [reflexivity|].
  rewrite IH.
  - unfold CIDict.setitem. simpl. apply lookup_insert_ne.
    apply H. unfold keys. simpl. apply elem_of_cons. left. reflexivity.
  - intros k' Hk'. apply H. unfold keys. simpl.
    apply elem_of_cons. right. exact Hk'.
Qed.

Lemma add_content_type_lookup (ct : option string) (m : CIDict.t) (key : string) :
  key <> "content-type" ->
  requests.add_content_type ct m !! key = m !! key.
Proof.
  intros Hne. unfold requests.add_content_type.
  destruct ct as [c|]; [|reflexivity].
  destruct (Str.truthy c && negb (CIDict.contains "content-type" m));
    [|reflexivity].
  unfold CIDict.setitem. apply lookup_insert_ne.
  intros E. apply Hne. rewrite <- E. reflexivity.
Qed.

Lemma add_content_type_keeps (ct : option string) (m : CIDict.t) (kv : string * string) :
  m !! "content-type" = Some kv ->
  requests.add_content_type ct m = m.
Proof.
  intros H. unfold requests.add_content_type.
  destruct ct as [c|]; [|reflexivity].
  replace (CIDict.contains "content-type" m) with true.
  - rewrite andb_false_r. reflexivity.
  - symmetry. unfold CIDict.contains. apply bool_decide_eq_true.
    change (Str.lower "content-type") with "content-type". rewrite H. eauto.
Qed.

Lemma deref_store (h : Heap) (l : loc) (d : PyDict) :
  deref (<[l := d]> h) l = d.
Proof. unfold deref. rewrite lookup_insert_eq. reflexivity. Qed.

Lemma fresh_loc_unused (h : Heap) : h !! fresh_loc h = None.
Proof. apply not_elem_of_dom. unfold fresh_loc. apply is_fresh. Qed.

Lemma deref_fresh_store (h : Heap) (l : loc) :
  deref (<[fresh_loc h := []]> h) l = deref h l.
Proof.
  unfold deref. destruct (decide (fresh_loc h = l)) as [<-|Hne].
  - rewrite lookup_insert_eq, fresh_loc_unused. reflexivity.
  - rewrite lookup_insert_ne by exact Hne. reflexivity.
Qed.

End DictFacts.

(* ===================================================================== *)
(** ** The shape of every call to [request] *)

Section RequestFacts.

Variable send : Outgoing -> TransportOutcome.
Variable boundary : string.
Variable generic_description : Z -> string.

Lemma request_shape (self : Client) (m u : string) (kw : Kwargs) (e : Env) :
  exists (hdrs : PyDict) (h' : Heap) (out : Outgoing),
    out = mkOutgoing (Str.upper m) (full_url (base_url (config self)) u)
            (requests.add_content_type
               (requests.body_content_type boundary (kw_data kw) (kw_json kw) (kw_files kw))
               (requests.merge_setting hdrs (session_headers (session self))))
            (kw_params kw) (kw_data kw) (kw_json kw) (kw_files kw)
            (inject_Z (timeout (config self)) / 1000)%Q
    /\ env_of (DocuSignAlternativeSDK.request send boundary generic_description self m u kw e)
       = mkEnv h' (trace e ++ [Sent out])
    /\ client_of (DocuSignAlternativeSDK.request send boundary generic_description self m u kw e)
       = self
    /\ result_of (DocuSignAlternativeSDK.request send boundary generic_description self m u kw e)
       = match send out with
         | Responded response =>
             if ok response then Return response
             else Raise (ApiError (create_error_from_response generic_description
                                     (status_code response)
                                     match json response with
                                     | Some parsed => parsed
                                     | None => JObj [("message",
                                                 JStr (Str.or_else (text response) "Unknown error"))]
                                     end
                                     (CIDict.get "x-request-id" (resp_headers response))))
         | Raised x =>
             if isinstance x Timeout then Raise (TimeoutError "Request timeout")
             else if isinstance x ConnectionError
             then Raise (NetworkError ("Network error: " +:+ exc_str x))
             else if isinstance x RequestException
             then Raise (NetworkError ("Request error: " +:+ exc_str x))
             else Raise (Uncaught x)
         end
    /\ (forall k, k ∈ keys hdrs -> k ∈ keys (call_headers kw e))
    /\ (forall l, l ∈ dom (heap e) -> h' !! l = heap e !! l).
Proof.
  unfold DocuSignAlternativeSDK.request, DocuSignAlternativeSDK.session_request,
    call_headers.
  cbv zeta.
  destruct (kw_headers kw) as [l|];
    [destruct (Dict.truthy (deref (heap (DocuSignAlternativeSDK.store
                                           (fresh_loc (heap e)) [] e)) l)) eqn:Ht|];
    destruct (truthy_obj (kw_files kw) && Dict.truthy (default [] (kw_files kw)));
    cbn [DocuSignAlternativeSDK.store heap trace];
    rewrite ?deref_store.
  all: try destruct (Dict.contains "Content-Type" _) eqn:Hc.
  all: cbn [DocuSignAlternativeSDK.store heap trace]; rewrite ?deref_store.
  all: eexists _, _, _; split; [reflexivity|].
  all: split; [reflexivity|]; split; [reflexivity|].
  all: split;
    [unfold result_of; cbn [fst];
     match goal with |- context [send ?o] => destruct (send o) as [r|x] end;
     [destruct (ok r)|]; reflexivity|].
  all: rewrite ?deref_fresh_store.
  all: split;
    [intros k Hk; repeat (apply keys_delitem in Hk as [Hk _]);
     try (apply keys_update in Hk as [Hk|Hk]; [|exact Hk]);
     unfold keys in Hk; simpl in Hk; apply elem_of_nil in Hk; destruct Hk|].
  all: intros l' Hl'; assert (fresh_loc (heap e) <> l') as Hne
    by (intros <-; apply elem_of_dom in Hl' as [d Hd];
        rewrite fresh_loc_unused in Hd; discriminate).
  all: cbn [DocuSignAlternativeSDK.store heap];
    rewrite ?lookup_insert_ne by exact Hne; reflexivity.
Qed.

End RequestFacts.

(* ===================================================================== *)
(** ** Responses and transport failures *)

Section Outcomes.

Variable send : Outgoing -> TransportOutcome.
Variable boundary : string.
Variable generic_description : Z -> string.

Local Abbreviation request :=
  (DocuSignAlternativeSDK.request send boundary generic_description).

(** Every call hands exactly one request to the transport. *)
Lemma request_sends_once (self : Client) (m u : string) (kw : Kwargs) (e : Env) :
  exists out, trace (env_of (request self m u kw e)) = (trace e ++ [Sent out])%list.
Proof.
  destruct (request_shape send boundary generic_description self m u kw e)
    as (hdrs & h' & out & _ & Henv & _).
  exists out. rewrite Henv. reflexivity.
Qed.

(** What [request] makes of the transport's reply. *)
Lemma request_result (self : Client) (m u : string) (kw : Kwargs) (e : Env)
    (reply : TransportOutcome) :
  transport_reply send (env_of (request self m u kw e)) = Some reply ->
  result_of (request self m u kw e)
  = match reply with
    | Responded response =>
        if ok response then Return response
        else Raise (ApiError (create_error_from_response generic_description
                                (status_code response)
                                match json response with
                                | Some parsed => parsed
                                | None => JObj [("message",
                                            JStr (Str.or_else (text response) "Unknown error"))]
                                end
                                (CIDict.get "x-request-id" (resp_headers response))))
    | Raised x =>
        if isinstance x Timeout then Raise (TimeoutError "Request timeout")
        else if isinstance x ConnectionError
        then Raise (NetworkError ("Network error: " +:+ exc_str x))
        else if isinstance x RequestException
        then Raise (NetworkError ("Request error: " +:+ exc_str x))
        else Raise (Uncaught x)
    end.
Proof.
  destruct (request_shape send boundary generic_description self m u kw e)
    as (hdrs & h' & out & _ & Henv & _ & Hres & _).
  rewrite Henv, Hres. unfold transport_reply, last_sent. cbn [trace].
  rewrite last_snoc. cbn. intros [= <-]. reflexivity.
Qed.

End Outcomes.

(** C3: when the transport answers with a 2xx status, [request] returns
    that very response (same status, headers and body) and raises
    nothing. *)
Theorem request_returns_2xx_response
    (send : Outgoing -> TransportOutcome) (boundary : string)
    (generic_description : Z -> string)
    (self : Client) (m u : string) (kw : Kwargs) (e : Env) (r : Response) :
  transport_reply send
    (env_of (DocuSignAlternativeSDK.request send boundary generic_description self m u kw e))
  = Some (Responded r) ->
  (200 <= status_code r < 300)%Z ->
  result_of (DocuSignAlternativeSDK.request send boundary generic_description self m u kw e)
  = Return r.
Proof.
  intros Hreply Hstatus.
  rewrite (request_result _ _ _ _ _ _ _ _ _ Hreply).
  unfold ok.
  destruct (Z.leb_spec 400 (status_code r)); [lia|]. reflexivity.
Qed.

Lemma request_returns_2xx_response_witness :
  result_of (DocuSignAlternativeSDK.request (Sample.answer Sample.resp_200) "b"
               Sample.generic Sample.client "get" "/v1/documents" no_kwargs Sample.env1)
  = Return Sample.resp_200.
Proof.
  apply request_returns_2xx_response; [vm_compute; reflexivity | vm_compute; intuition discriminate].
Defined.

(** C8: the URL [request] hands to the transport is the base URL without
    its trailing slashes, one slash, and the path without its leading
    slashes; the left part does not end with a slash and the right part
    does not start with one, so exactly one slash separates them whether
    or not the base URL ends with slashes or the path starts with
    slashes. *)
Theorem request_joins_url_with_one_slash
    (send : Outgoing -> TransportOutcome) (boundary : string)
    (generic_description : Z -> string)
    (self : Client) (m u : string) (kw : Kwargs) (e : Env) :
  exists (out : Outgoing) (b p : string) (n k : nat),
    last_sent (env_of (DocuSignAlternativeSDK.request send boundary
                         generic_description self m u kw e)) = Some out
    /\ o_url out = b +:+ "/" +:+ p
    /\ base_url (config self) = b +:+ Str.slashes n
    /\ u = Str.slashes k +:+ p
    /\ Str.ends_with_slash b = false
    /\ Str.starts_with_slash p = false.
Proof.
  destruct (request_shape send boundary generic_description self m u kw e)
    as (hdrs & h' & out & Hshape & Henv & _).
  destruct (full_url_one_separating_slash (base_url (config self)) u)
    as (b & p & n & k & Hurl & Hrest).
  exists out, b, p, n, k. split.
  - rewrite Henv. unfold last_sent. cbn [trace]. rewrite last_snoc. reflexivity.
  - rewrite Hshape. cbn [o_url]. rewrite Hurl. split; [reflexivity | exact Hrest].
Qed.

(** C1, as the code has it: when the session hands back a response with
    a status from 400 to 599 (the statuses for which [response.ok] is
    false), [request] raises one typed error and returns nothing: its
    kind is the one the status table gives, its status code is the
    response's, its request id is the response's [x-request-id] header
    (looked up without regard to case) or absent when there is none, and
    its message is taken from the parsed JSON body, or is the raw body
    text, else ["Unknown error"], when the body is not JSON. A response
    with any other status is returned as it is. *)
Theorem request_raises_typed_error_on_error_status
    (send : Outgoing -> TransportOutcome) (boundary : string)
    (generic_description : Z -> string)
    (self : Client) (m u : string) (kw : Kwargs) (e : Env) (r : Response) :
  transport_reply send
    (env_of (DocuSignAlternativeSDK.request send boundary generic_description self m u kw e))
  = Some (Responded r) ->
  ((400 <= status_code r < 600)%Z ->
   exists err : TypedError,
     result_of (DocuSignAlternativeSDK.request send boundary generic_description self m u kw e)
     = Raise (ApiError err)
     /\ kind err = kind_of_status (status_code r)
     /\ statusCode err = status_code r
     /\ requestId err = CIDict.get "x-request-id" (resp_headers r)
     /\ match json r with
        | Some parsed => message err = message_of (generic_description (status_code r)) parsed
        | None => message err = Str.or_else (text r) "Unknown error"
        end)
  /\ (~ (400 <= status_code r < 600)%Z ->
      result_of (DocuSignAlternativeSDK.request send boundary generic_description self m u kw e)
      = Return r).
Proof.
  intros Hreply.
  rewrite (request_result _ _ _ _ _ _ _ _ _ Hreply).
  unfold ok. split; intros Hstatus.
  - destruct (Z.leb_spec 400 (status_code r)); [|lia].
    destruct (Z.ltb_spec (status_code r) 600); [|lia].
    cbn [andb negb].
    eexists. split; [reflexivity|].
    cbn [kind statusCode requestId message create_error_from_response].
    repeat split.
    destruct (json r); reflexivity.
  - destruct (Z.leb_spec 400 (status_code r)), (Z.ltb_spec (status_code r) 600);
      cbn [andb negb]; try reflexivity.
    exfalso. apply Hstatus. lia.
Qed.

Lemma request_raises_typed_error_on_error_status_witness :
  (exists err : TypedError,
      result_of (DocuSignAlternativeSDK.request
                   (Session_send (session Sample.client)
                      (Wire.always (urllib3.Answered Sample.resp_404)))
                   "b" Sample.generic Sample.client "GET" "/v1/documents" no_kwargs
                   Sample.env1)
      = Raise (ApiError err)
      /\ kind err = NotFoundError
      /\ statusCode err = 404%Z
      /\ requestId err = Some "abc123"
      /\ message err = "not found")
  /\ (exists err : TypedError,
         result_of (DocuSignAlternativeSDK.request
                      (Session_send (session Sample.client)
                         (Wire.always (urllib3.Answered Sample.resp_502)))
                      "b" Sample.generic Sample.client "PATCH" "/v1/documents" no_kwargs
                      Sample.env1)
         = Raise (ApiError err)
         /\ kind err = ServerError
         /\ statusCode err = 502%Z
         /\ requestId err = None
         /\ message err = "Bad Gateway")
  /\ result_of (DocuSignAlternativeSDK.request
                  (Session_send (session Sample.client)
                     (Wire.always (urllib3.Answered Sample.resp_304)))
                  "b" Sample.generic Sample.client "GET" "/v1/documents" no_kwargs
                  Sample.env1)
     = Return Sample.resp_304.
Proof.
  split; [|split].
  - destruct (request_raises_typed_error_on_error_status
                (Session_send (session Sample.client)
                   (Wire.always (urllib3.Answered Sample.resp_404)))
                "b" Sample.generic Sample.client
                "GET" "/v1/documents" no_kwargs Sample.env1 Sample.resp_404)
      as [Herror _].
    + vm_compute. reflexivity.
    + destruct Herror as (err & Hres & Hkind & Hcode & Hid & Hmsg).
      * vm_compute. intuition discriminate.
      * exists err. split; [exact Hres|].
        split; [exact Hkind|]. split; [exact Hcode|].
        split; [rewrite Hid; vm_compute; reflexivity | exact Hmsg].
  - destruct (request_raises_typed_error_on_error_status
                (Session_send (session Sample.client)
                   (Wire.always (urllib3.Answered Sample.resp_502)))
                "b" Sample.generic Sample.client
                "PATCH" "/v1/documents" no_kwargs Sample.env1 Sample.resp_502)
      as [Herror _].
    + vm_compute. reflexivity.
    + destruct Herror as (err & Hres & Hkind & Hcode & Hid & Hmsg).
      * vm_compute. intuition discriminate.
      * exists err. split; [exact Hres|].
        split; [exact Hkind|]. split; [exact Hcode|].
        split; [rewrite Hid; vm_compute; reflexivity | exact Hmsg].
  - destruct (request_raises_typed_error_on_error_status
                (Session_send (session Sample.client)
                   (Wire.always (urllib3.Answered Sample.resp_304)))
                "b" Sample.generic Sample.client
                "GET" "/v1/documents" no_kwargs Sample.env1 Sample.resp_304)
      as [_ Hreturn].
    + vm_compute. reflexivity.
    + apply Hreturn. vm_compute. intros [H _]. apply H. reflexivity.
Defined.

(** C1 as stated fails: 304 is not a 2xx status, yet [response.ok] holds
    for it and [request] returns the response instead of raising. *)
Lemma request_returns_304_response :
  status_code Sample.resp_304 = 304%Z
  /\ result_of (DocuSignAlternativeSDK.request (Sample.answer Sample.resp_304) "b"
                  Sample.generic Sample.client "GET" "/v1/documents" no_kwargs Sample.env1)
     = Return Sample.resp_304.
Proof. split; vm_compute; reflexivity. Qed.

(** C5: a configuration with no API key, no OAuth settings and no JWT
    makes construction raise [ConfigurationError]; the environment is
    left as it was, so no session was created and nothing was sent. *)
Theorem init_without_credentials_raises (cfg : SDKConfiguration) (e : Env) :
  api_key cfg = None -> oauth cfg = None -> jwt cfg = None ->
  DocuSignAlternativeSDK.__init__ cfg e
  = (Raise (ConfigurationError "API key, OAuth configuration, or JWT token is required"), e).
Proof.
  intros Hk Ho Hj.
  unfold DocuSignAlternativeSDK.__init__, DocuSignAlternativeSDK._validate_config.
  rewrite Hk, Ho, Hj. reflexivity.
Qed.

Lemma init_without_credentials_raises_witness :
  DocuSignAlternativeSDK.__init__
    (mkConfig None None None "" (Some "staging") 30000 3 1000) Sample.env
  = (Raise (ConfigurationError "API key, OAuth configuration, or JWT token is required"),
     Sample.env).
Proof. apply init_without_credentials_raises; reflexivity. Defined.

(* ===================================================================== *)
(** ** Configuration *)

Lemma resolve_base_url_table (env : option string) :
  DocuSignAlternativeSDK.resolve_base_url env
  = if decide (env = Some "development") then "https://api-dev.docusign-alternative.com"
    else if decide (env = Some "staging") then "https://api-staging.docusign-alternative.com"
    else "https://api.docusign-alternative.com".
Proof.
  unfold DocuSignAlternativeSDK.resolve_base_url, Dict.get_default,
    DocuSignAlternativeSDK.base_urls.
  destruct env as [s|]; [|repeat case_decide; try discriminate; reflexivity].
  cbn [Dict.get].
  destruct (String.eqb_spec "development" s) as [<-|H1].
  { rewrite decide_True by reflexivity. reflexivity. }
  rewrite decide_False by congruence.
  destruct (String.eqb_spec "staging" s) as [<-|H2].
  { rewrite decide_True by reflexivity. reflexivity. }
  rewrite decide_False by congruence.
  destruct (String.eqb_spec "production" s); reflexivity.
Qed.

(** C9: for a configuration that carries a credential, construction
    keeps a non-empty base URL as it is and replaces an empty one by the
    table entry of the environment: the development and staging URLs for
    those two names, and production's URL for ["production"], for any
    other name and for no environment at all. *)
Theorem init_resolves_base_url (cfg : SDKConfiguration) (e : Env) :
  truthy_str (api_key cfg) || truthy_obj (oauth cfg) || truthy_obj (jwt cfg) = true ->
  exists (s : Session) (e' : Env),
    DocuSignAlternativeSDK.__init__ cfg e
    = (Return
         (mkClient
            (if Str.truthy (base_url cfg) then cfg
             else set_base_url
                    (if decide (environment cfg = Some "development")
                     then "https://api-dev.docusign-alternative.com"
                     else if decide (environment cfg = Some "staging")
                     then "https://api-staging.docusign-alternative.com"
                     else "https://api.docusign-alternative.com")
                    cfg)
            s),
       e').
Proof.
  intros Hcred.
  unfold DocuSignAlternativeSDK.__init__, DocuSignAlternativeSDK._validate_config.
  replace (negb (truthy_str (api_key cfg)) && negb (truthy_obj (oauth cfg))
           && negb (truthy_obj (jwt cfg))) with false
    by (destruct (truthy_str (api_key cfg)), (truthy_obj (oauth cfg)),
          (truthy_obj (jwt cfg)); simpl in *; congruence).
  rewrite <- resolve_base_url_table.
  destruct (Str.truthy (base_url cfg)); cbn [negb]; eexists _, _; reflexivity.
Qed.

Lemma init_resolves_base_url_witness :
  exists (s : Session) (e' : Env),
    DocuSignAlternativeSDK.__init__
      (mkConfig (Some "key-123") None None "" (Some "sandbox") 30000 3 1000) Sample.env
    = (Return
         (mkClient
            (mkConfig (Some "key-123") None None "https://api.docusign-alternative.com"
                      (Some "sandbox") 30000 3 1000)
            s),
       e').
Proof.
  apply (init_resolves_base_url
           (mkConfig (Some "key-123") None None "" (Some "sandbox") 30000 3 1000)
           Sample.env).
  reflexivity.
Defined.

(* ===================================================================== *)
(** ** The retry policy *)

Section RetryFacts.

Lemma sends_when_all_fail_total (fuel : nat) (r : Retry) :
  (0 <= total r)%Z -> (Z.to_nat (total r) < fuel)%nat ->
  Z.of_nat (requests.sends_when_all_fail fuel r) = (1 + total r)%Z.
Proof.
  revert r. induction fuel as [|fuel IH]; intros r Hpos Hfuel; [lia|].
  cbn [requests.sends_when_all_fail].
  unfold requests.is_exhausted. cbn [requests.increment total].
  destruct (Z.ltb_spec (total r - 1) 0) as [Hlt|Hge]; [lia|].
  rewrite Nat2Z.inj_succ, IH; cbn [requests.increment total]; lia.
Qed.

Lemma backoff_factor_nonneg (delay : Z) :
  (0 <= delay)%Z -> (0 <= inject_Z delay / 1000)%Q.
Proof.
  intros H. apply Qle_shift_div_l; [reflexivity|].
  rewrite Qmult_0_l. change 0%Q with (inject_Z 0). rewrite <- Zle_Qle. exact H.
Qed.

Lemma get_backoff_time_monotone (r : Retry) (n : nat) :
  (0 <= backoff_factor r)%Q ->
  (requests.get_backoff_time r n <= requests.get_backoff_time r (S n))%Q.
Proof.
  intros Hf. unfold requests.get_backoff_time.
  destruct n as [|[|n]]; cbn [Nat.leb].
  - apply Qle_refl.
  - apply Q.min_glb; [discriminate|].
    apply Qmult_le_0_compat; [exact Hf|]. discriminate.
  - apply Q.min_le_compat_l.
    rewrite !(Qmult_comm (backoff_factor r)).
    apply Qmult_le_compat_r; [|exact Hf].
    rewrite <- Zle_Qle. apply Z.pow_le_mono_r; lia.
Qed.

End RetryFacts.

Lemma validate_config_keeps_policy (cfg cfg' : SDKConfiguration) :
  DocuSignAlternativeSDK._validate_config cfg = Return cfg' ->
  retries cfg' = retries cfg /\ retry_delay cfg' = retry_delay cfg
  /\ timeout cfg' = timeout cfg.
Proof.
  unfold DocuSignAlternativeSDK._validate_config.
  destruct (negb (truthy_str (api_key cfg)) && negb (truthy_obj (oauth cfg))
            && negb (truthy_obj (jwt cfg))); [discriminate|].
  destruct (negb (Str.truthy (base_url cfg))); intros [= <-]; repeat split.
Qed.

Lemma init_session (cfg : SDKConfiguration) (e e' : Env) (self : Client) :
  DocuSignAlternativeSDK.__init__ cfg e = (Return self, e') ->
  exists cfg' : SDKConfiguration,
    DocuSignAlternativeSDK._validate_config cfg = Return cfg'
    /\ self = mkClient cfg' (DocuSignAlternativeSDK._create_session cfg' e).1
    /\ max_retries (session self)
       = mkRetry (retries cfg') (inject_Z (retry_delay cfg') / 1000)%Q
                 [429; 500; 502; 503; 504]%Z
                 ["HEAD"; "GET"; "PUT"; "DELETE"; "OPTIONS"; "TRACE"; "POST"].
Proof.
  unfold DocuSignAlternativeSDK.__init__.
  destruct (DocuSignAlternativeSDK._validate_config cfg) as [cfg'|];
    [|discriminate].
  intros [= <- _]. exists cfg'. repeat split.
Qed.

Lemma request_timeout (send : Outgoing -> TransportOutcome) (boundary : string)
    (generic_description : Z -> string) (self : Client) (m u : string)
    (kw : Kwargs) (e : Env) (out : Outgoing) :
  last_sent (env_of (DocuSignAlternativeSDK.request send boundary
                       generic_description self m u kw e)) = Some out ->
  (o_timeout out * 1000 == inject_Z (timeout (config self)))%Q.
Proof.
  destruct (request_shape send boundary generic_description self m u kw e)
    as (hdrs & h' & out0 & Hshape & Henv & _).
  rewrite Henv. unfold last_sent. cbn [trace]. rewrite last_snoc.
  intros [= <-]. rewrite Hshape. cbn [o_timeout]. field.
Qed.

(* ===================================================================== *)
(** ** Headers on the wire and the frame of a call *)

Section HeaderFacts.

Variable send : Outgoing -> TransportOutcome.
Variable boundary : string.
Variable generic_description : Z -> string.

(** A header the call does not pass itself goes out as the session has
    it. *)
Lemma request_sends_session_header (self : Client) (m u : string) (kw : Kwargs)
    (e : Env) (key : string) :
  key <> "content-type" ->
  (forall k, k ∈ keys (call_headers kw e) -> Str.lower k <> key) ->
  exists out : Outgoing,
    last_sent (env_of (DocuSignAlternativeSDK.request send boundary
                         generic_description self m u kw e)) = Some out
    /\ o_headers out !! key = session_headers (session self) !! key.
Proof.
  intros Hkey Hcall.
  destruct (request_shape send boundary generic_description self m u kw e)
    as (hdrs & h' & out & Hshape & Henv & _ & _ & Hkeys & _).
  exists out. split.
  - rewrite Henv. unfold last_sent. cbn [trace]. rewrite last_snoc. reflexivity.
  - rewrite Hshape. cbn [o_headers].
    rewrite add_content_type_lookup by exact Hkey.
    unfold requests.merge_setting. apply ci_update_lookup.
    intros k Hk. apply Hcall, Hkeys, Hk.
Qed.

(** The session's content type goes out on every call that does not
    pass a content type of its own, whatever the body is. *)
Lemma request_sends_session_content_type (self : Client) (m u : string)
    (kw : Kwargs) (e : Env) (kv : string * string) :
  session_headers (session self) !! "content-type" = Some kv ->
  (forall k, k ∈ keys (call_headers kw e) -> Str.lower k <> "content-type") ->
  exists out : Outgoing,
    last_sent (env_of (DocuSignAlternativeSDK.request send boundary
                         generic_description self m u kw e)) = Some out
    /\ o_headers out !! "content-type" = Some kv.
Proof.
  intros Hsession Hcall.
  destruct (request_shape send boundary generic_description self m u kw e)
    as (hdrs & h' & out & Hshape & Henv & _ & _ & Hkeys & _).
  assert (requests.merge_setting hdrs (session_headers (session self)) !! "content-type"
          = Some kv) as Hmerged.
  { unfold requests.merge_setting. rewrite ci_update_lookup; [exact Hsession|].
    intros k Hk. apply Hcall, Hkeys, Hk. }
  exists out. split.
  - rewrite Henv. unfold last_sent. cbn [trace]. rewrite last_snoc. reflexivity.
  - rewrite Hshape. cbn [o_headers].
    rewrite (add_content_type_keeps _ _ _ Hmerged). exact Hmerged.
Qed.

Lemma request_unchanged (self : Client) (m u : string) (kw : Kwargs) (e : Env) :
  unchanged_by self e
    (DocuSignAlternativeSDK.request send boundary generic_description self m u kw e).
Proof.
  destruct (request_shape send boundary generic_description self m u kw e)
    as (hdrs & h' & out & _ & Henv & Hclient & _ & _ & Hframe).
  unfold unchanged_by. rewrite Hclient, Henv. cbn [heap].
  split; [reflexivity|]. split; [reflexivity | exact Hframe].
Qed.

End HeaderFacts.

(** C10: [request], the five verbs and [upload_file] leave the client's
    configuration and the session's default headers as they were,
    whether the call returns or raises; the header dict the call edits
    is a new object, so every dict that existed before the call
    (the caller's own [headers] among them) is untouched as well. *)
Theorem calls_leave_client_unchanged
    (send : Outgoing -> TransportOutcome) (boundary : string)
    (generic_description : Z -> string)
    (self : Client) (u : string) (kw : Kwargs) (e : Env) :
  (forall m : string,
      unchanged_by self e
        (DocuSignAlternativeSDK.request send boundary generic_description self m u kw e))
  /\ unchanged_by self e
       (DocuSignAlternativeSDK.get send boundary generic_description self u kw e)
  /\ unchanged_by self e
       (DocuSignAlternativeSDK.post send boundary generic_description self u kw e)
  /\ unchanged_by self e
       (DocuSignAlternativeSDK.put send boundary generic_description self u kw e)
  /\ unchanged_by self e
       (DocuSignAlternativeSDK.patch send boundary generic_description self u kw e)
  /\ unchanged_by self e
       (DocuSignAlternativeSDK.delete send boundary generic_description self u kw e)
  /\ (forall (file_data : string) (additional_data : option PyDict),
         unchanged_by self e
           (DocuSignAlternativeSDK.upload_file send boundary generic_description
              self u file_data additional_data e)).
Proof.
  split; [intros m; apply request_unchanged|].
  do 5 (split; [apply request_unchanged|]).
  intros file_data additional_data. apply request_unchanged.
Qed.

(* ===================================================================== *)
(** ** Auth mutation *)






(* ===================================================================== *)
(** ** File uploads *)

Lemma init_session_content_type (cfg : SDKConfiguration) (e e' : Env) (self : Client) :
  DocuSignAlternativeSDK.__init__ cfg e = (Return self, e') ->
  session_headers (session self) !! "content-type"
  = Some ("Content-Type", "application/json").
Proof.
  intros Hinit.
  destruct (init_session _ _ _ _ Hinit) as (cfg' & _ & -> & _).
  unfold DocuSignAlternativeSDK._create_session. cbn [fst session session_headers].
  assert (forall v m, CIDict.setitem "Authorization" v m !! "content-type"
                      = m !! "content-type") as Hauth.
  { intros v m. unfold CIDict.setitem. apply lookup_insert_ne. discriminate. }
  destruct (truthy_str (api_key cfg')); [rewrite Hauth; reflexivity|].
  destruct (jwt cfg') as [j|]; [|reflexivity].
  destruct (truthy_str (token j)); [rewrite Hauth|]; reflexivity.
Qed.

(** On a client as constructed, every upload goes out with the
    session's [Content-Type: application/json]: the deletion in
    [request] acts on the per-call dict, which never held that header. *)
Lemma upload_file_sends_session_content_type
    (send : Outgoing -> TransportOutcome) (boundary : string)
    (generic_description : Z -> string)
    (cfg : SDKConfiguration) (e0 e : Env) (self : Client)
    (u file_data : string) (additional_data : option PyDict) (e1 : Env) :
  DocuSignAlternativeSDK.__init__ cfg e0 = (Return self, e) ->
  sent_header "Content-Type"
    (env_of (DocuSignAlternativeSDK.upload_file send boundary generic_description
               self u file_data additional_data e1))
  = Some "application/json".
Proof.
  intros Hinit.
  pose proof (init_session_content_type _ _ _ _ Hinit) as Hct.
  unfold DocuSignAlternativeSDK.upload_file, DocuSignAlternativeSDK.post.
  match goal with
  | |- context [DocuSignAlternativeSDK.request _ _ _ _ ?m ?u ?kw ?e] =>
      destruct (request_sends_session_content_type send boundary generic_description
                  self m u kw e _ Hct) as (out & Hout & Hlook)
  end.
  - intros k Hk. unfold call_headers in Hk. cbn in Hk.
    apply elem_of_nil in Hk. destruct Hk.
  - unfold sent_header. rewrite Hout. unfold CIDict.get.
    change (Str.lower "Content-Type") with "content-type".
    rewrite Hlook. reflexivity.
Qed.

(** C2 fails on the code: an upload on a client as constructed is sent
    with the fixed header [Content-Type: application/json]: the header
    comes from the session's defaults, which the deletion in [request]
    does not reach, and the transport keeps a content type it is given. *)
Theorem upload_file_sends_json_content_type :
  DocuSignAlternativeSDK.__init__ Sample.cfg Sample.env
  = (Return Sample.client, Sample.env1)
  /\ sent_header "Content-Type"
       (env_of (DocuSignAlternativeSDK.upload_file (Sample.answer Sample.resp_200)
                  "b" Sample.generic Sample.client "/v1/documents" "%PDF-1.7" None
                  Sample.env1))
     = Some "application/json".
Proof. split; vm_compute; reflexivity. Qed.

(* ===================================================================== *)
(** ** Construction *)

Section ConstructionFacts.

Lemma has_credential_false (cfg : SDKConfiguration) :
  has_credential cfg = false
  <-> (api_key cfg = None \/ api_key cfg = Some "") /\ oauth cfg = None /\ jwt cfg = None.
Proof.
  unfold has_credential, truthy_str, truthy_obj.
  destruct (api_key cfg) as [[|c k]|], (oauth cfg), (jwt cfg); cbn;
    intuition (discriminate || eauto).
Qed.

Lemma validate_config_cases (cfg : SDKConfiguration) :
  DocuSignAlternativeSDK._validate_config cfg
  = if has_credential cfg
    then Return (if Str.truthy (base_url cfg) then cfg
                 else set_base_url
                        (DocuSignAlternativeSDK.resolve_base_url (environment cfg)) cfg)
    else Raise (ConfigurationError "API key, OAuth configuration, or JWT token is required").
Proof.
  unfold DocuSignAlternativeSDK._validate_config, has_credential.
  destruct (truthy_str (api_key cfg)), (truthy_obj (oauth cfg)),
    (truthy_obj (jwt cfg)), (Str.truthy (base_url cfg)); reflexivity.
Qed.

Lemma resolve_base_url_truthy (env : option string) :
  Str.truthy (DocuSignAlternativeSDK.resolve_base_url env) = true.
Proof.
  rewrite resolve_base_url_table. repeat case_decide; reflexivity.
Qed.

Lemma create_session_other_header (cfg : SDKConfiguration) (e : Env) (key : string) :
  key <> "authorization" ->
  session_headers (DocuSignAlternativeSDK._create_session cfg e).1 !! key
  = CIDict.update requests.default_headers
      [("Content-Type", "application/json");
       ("User-Agent", "DocuSignAlternative-Python-SDK/1.0.0");
       ("Accept", "application/json")] !! key.
Proof.
  intros Hkey. unfold DocuSignAlternativeSDK._create_session.
  cbn [fst session_headers].
  assert (forall v m, CIDict.setitem "Authorization" v m !! key = m !! key) as Hauth.
  { intros v m. unfold CIDict.setitem. apply lookup_insert_ne.
    intros E. apply Hkey. rewrite <- E. reflexivity. }
  destruct (truthy_str (api_key cfg)); [apply Hauth|].
  destruct (jwt cfg) as [j|]; [|reflexivity].
  destruct (truthy_str (token j)); [apply Hauth | reflexivity].
Qed.

Lemma create_session_authorization (cfg : SDKConfiguration) (e : Env) :
  CIDict.get "Authorization"
    (session_headers (DocuSignAlternativeSDK._create_session cfg e).1)
  = if truthy_str (api_key cfg) then Some ("Bearer " +:+ default "" (api_key cfg))
    else match jwt cfg with
         | Some j => if truthy_str (token j)
                     then Some ("Bearer " +:+ default "" (token j)) else None
         | None => None
         end.
Proof.
  unfold DocuSignAlternativeSDK._create_session, CIDict.get.
  cbn [fst session_headers].
  change (Str.lower "Authorization") with "authorization".
  assert (forall v (m : gmap string (string * string)),
             snd <$> CIDict.setitem "Authorization" v m !! "authorization" = Some v)
    as Hauth.
  { intros v m. unfold CIDict.setitem, CIDict.t.
    change (Str.lower "Authorization") with "authorization".
    rewrite lookup_insert_eq. reflexivity. }
  destruct (truthy_str (api_key cfg)); [apply Hauth|].
  destruct (jwt cfg) as [j|]; [|vm_compute; reflexivity].
  destruct (truthy_str (token j)); [apply Hauth | vm_compute; reflexivity].
Qed.

End ConstructionFacts.

(** X1: construction raises [ConfigurationError], before any session
    exists, exactly when the API key is missing or empty and neither
    OAuth settings nor a JWT object are given; in every other case it
    returns a client. *)
Theorem init_raises_iff_no_credential (cfg : SDKConfiguration) (e : Env) :
  (((api_key cfg = None \/ api_key cfg = Some "") /\ oauth cfg = None /\ jwt cfg = None)
   <-> DocuSignAlternativeSDK.__init__ cfg e
       = (Raise (ConfigurationError "API key, OAuth configuration, or JWT token is required"),
          e))
  /\ (~ ((api_key cfg = None \/ api_key cfg = Some "") /\ oauth cfg = None /\ jwt cfg = None)
      -> exists (self : Client) (e' : Env),
           DocuSignAlternativeSDK.__init__ cfg e = (Return self, e')).
Proof.
  rewrite <- has_credential_false.
  unfold DocuSignAlternativeSDK.__init__. rewrite validate_config_cases.
  destruct (has_credential cfg); split.
  - split; [discriminate|].
    unfold DocuSignAlternativeSDK._create_session. discriminate.
  - intros _. unfold DocuSignAlternativeSDK._create_session. eexists _, _. reflexivity.
  - split; reflexivity.
  - intros H. destruct H. reflexivity.
Qed.

(** X2: the configuration of a constructed client is the one given,
    except that an empty base URL has been filled in; it always has a
    non-empty base URL and a credential, and validating it again returns
    it unchanged. *)
Theorem constructed_config_is_normalised
    (cfg : SDKConfiguration) (e e' : Env) (self : Client) :
  DocuSignAlternativeSDK.__init__ cfg e = (Return self, e') ->
  Str.truthy (base_url (config self)) = true
  /\ has_credential (config self) = true
  /\ DocuSignAlternativeSDK._validate_config (config self) = Return (config self)
  /\ (base_url cfg <> "" -> config self = cfg)
  /\ api_key (config self) = api_key cfg
  /\ oauth (config self) = oauth cfg
  /\ jwt (config self) = jwt cfg
  /\ environment (config self) = environment cfg
  /\ timeout (config self) = timeout cfg
  /\ retries (config self) = retries cfg
  /\ retry_delay (config self) = retry_delay cfg.
Proof.
  intros Hinit.
  destruct (init_session _ _ _ _ Hinit) as (cfg' & Hv & -> & _).
  cbn [config]. rewrite validate_config_cases in Hv.
  destruct (has_credential cfg) eqn:Hcred; [|discriminate].
  injection Hv as <-.
  destruct (Str.truthy (base_url cfg)) eqn:Hbase.
  - rewrite validate_config_cases, Hcred, Hbase. repeat split.
  - assert (Str.truthy (base_url (set_base_url
              (DocuSignAlternativeSDK.resolve_base_url (environment cfg)) cfg)) = true)
      as Hnew by apply resolve_base_url_truthy.
    rewrite validate_config_cases, Hnew.
    change (has_credential (set_base_url
              (DocuSignAlternativeSDK.resolve_base_url (environment cfg)) cfg))
      with (has_credential cfg).
    rewrite Hcred. repeat split; try exact Hnew.
    intros Hne. destruct (base_url cfg); [congruence | discriminate].
Qed.

Lemma constructed_config_is_normalised_witness :
  base_url (config (mkClient
                      (set_base_url "https://api.docusign-alternative.com" Cases.cfg_oauth)
                      (DocuSignAlternativeSDK._create_session
                         (set_base_url "https://api.docusign-alternative.com" Cases.cfg_oauth)
                         Sample.env).1))
  = "https://api.docusign-alternative.com"
  /\ DocuSignAlternativeSDK._validate_config
       (set_base_url "https://api.docusign-alternative.com" Cases.cfg_oauth)
     = Return (set_base_url "https://api.docusign-alternative.com" Cases.cfg_oauth).
Proof.
  destruct (constructed_config_is_normalised Cases.cfg_oauth Sample.env
              (DocuSignAlternativeSDK._create_session
                 (set_base_url "https://api.docusign-alternative.com" Cases.cfg_oauth)
                 Sample.env).2
              (mkClient
                 (set_base_url "https://api.docusign-alternative.com" Cases.cfg_oauth)
                 (DocuSignAlternativeSDK._create_session
                    (set_base_url "https://api.docusign-alternative.com" Cases.cfg_oauth)
                    Sample.env).1))
    as (_ & _ & Hvalid & _).
  - vm_compute. reflexivity.
  - split; [reflexivity | exact Hvalid].
Defined.

(** X3: the session of a constructed client carries [Authorization:
    Bearer <api key>] when a non-empty API key is configured, also when a
    JWT is configured as well; [Bearer <jwt token>] when there is no API
    key but a JWT with a non-empty token; and no Authorization header at
    all otherwise, in particular for a client configured with OAuth
    settings only. *)
Theorem constructed_session_authorization
    (cfg : SDKConfiguration) (e e' : Env) (self : Client) :
  DocuSignAlternativeSDK.__init__ cfg e = (Return self, e') ->
  (forall k : string,
      api_key cfg = Some k -> k <> "" ->
      CIDict.get "Authorization" (session_headers (session self)) = Some ("Bearer " +:+ k))
  /\ (forall (j : JWTConfig) (t : string),
         truthy_str (api_key cfg) = false -> jwt cfg = Some j -> token j = Some t ->
         t <> "" ->
         CIDict.get "Authorization" (session_headers (session self))
         = Some ("Bearer " +:+ t))
  /\ (truthy_str (api_key cfg) = false ->
      (jwt cfg = None \/ exists j, jwt cfg = Some j /\ truthy_str (token j) = false) ->
      CIDict.get "Authorization" (session_headers (session self)) = None).
Proof.
  intros Hinit.
  destruct (init_session _ _ _ _ Hinit) as (cfg' & Hv & -> & _).
  cbn [session]. rewrite create_session_authorization.
  rewrite validate_config_cases in Hv.
  destruct (has_credential cfg); [|discriminate]. injection Hv as <-.
  assert (api_key (if Str.truthy (base_url cfg) then cfg
                   else set_base_url (DocuSignAlternativeSDK.resolve_base_url
                                        (environment cfg)) cfg) = api_key cfg) as ->
    by (destruct (Str.truthy (base_url cfg)); reflexivity).
  assert (jwt (if Str.truthy (base_url cfg) then cfg
               else set_base_url (DocuSignAlternativeSDK.resolve_base_url
                                    (environment cfg)) cfg) = jwt cfg) as ->
    by (destruct (Str.truthy (base_url cfg)); reflexivity).
  split; [|split].
  - intros k -> Hk. destruct k; [congruence|]. reflexivity.
  - intros j t -> -> -> Ht. destruct t; [congruence|]. reflexivity.
  - intros -> [->|(j & -> & ->)]; reflexivity.
Qed.

Lemma constructed_session_authorization_witness :
  CIDict.get "Authorization"
    (session_headers (DocuSignAlternativeSDK._create_session
                        (set_base_url "https://api-staging.docusign-alternative.com"
                           Cases.cfg_both) Sample.env).1)
  = Some "Bearer key-123".
Proof.
  destruct (constructed_session_authorization Cases.cfg_both Sample.env
              (DocuSignAlternativeSDK._create_session
                 (set_base_url "https://api-staging.docusign-alternative.com"
                    Cases.cfg_both) Sample.env).2
              (mkClient
                 (set_base_url "https://api-staging.docusign-alternative.com"
                    Cases.cfg_both)
                 (DocuSignAlternativeSDK._create_session
                    (set_base_url "https://api-staging.docusign-alternative.com"
                       Cases.cfg_both) Sample.env).1))
    as (Hkey & _).
  - vm_compute. reflexivity.
  - apply (Hkey "key-123"); [reflexivity | discriminate].
Defined.

(* ===================================================================== *)
(** ** The headers a call sends *)

Section SentHeaders.

Variable send : Outgoing -> TransportOutcome.
Variable boundary : string.
Variable generic_description : Z -> string.

Lemma delitem_absent (k : string) (d : PyDict) :
  Dict.contains k d = false -> Dict.delitem k d = d.
Proof.
  unfold Dict.contains, Dict.delitem, PyDict in *.
  induction d as [|[k' v'] d IH]; [reflexivity|].
  intros H. cbn [existsb] in H. apply orb_false_iff in H as [Hk Hrest].
  rewrite filter_cons_True.
  - f_equal. apply IH, Hrest.
  - cbn in *. intros ->. rewrite String.eqb_refl in Hk. discriminate.
Qed.

Lemma request_dispatch (self : Client) (m u : string) (kw : Kwargs) (e : Env) :
  exists h' : Heap,
    env_of (DocuSignAlternativeSDK.request send boundary generic_description self m u kw e)
    = mkEnv h'
        (trace e ++
         [Sent (mkOutgoing (Str.upper m) (full_url (base_url (config self)) u)
                  (requests.add_content_type
                     (requests.body_content_type boundary (kw_data kw) (kw_json kw)
                        (kw_files kw))
                     (requests.merge_setting
                        (if files_truthy kw
                         then Dict.delitem "Content-Type"
                                (Dict.update [] (call_headers kw e))
                         else Dict.update [] (call_headers kw e))
                        (session_headers (session self))))
                  (kw_params kw) (kw_data kw) (kw_json kw) (kw_files kw)
                  (inject_Z (timeout (config self)) / 1000)%Q)]).
Proof.
  unfold DocuSignAlternativeSDK.request, DocuSignAlternativeSDK.session_request,
    call_headers, files_truthy.
  cbv zeta.
  destruct (kw_headers kw) as [l|];
    [destruct (Dict.truthy (deref (heap (DocuSignAlternativeSDK.store
                                           (fresh_loc (heap e)) [] e)) l)) eqn:Ht|];
    destruct (truthy_obj (kw_files kw) && Dict.truthy (default [] (kw_files kw)));
    cbn [DocuSignAlternativeSDK.store heap trace] in *;
    rewrite ?deref_store; rewrite ?deref_fresh_store in *.
  all: try destruct (Dict.contains "Content-Type" _) eqn:Hc.
  all: cbn [DocuSignAlternativeSDK.store heap trace]; rewrite ?deref_store.
  all: try (rewrite (delitem_absent _ _ Hc)).
  all: try (destruct (deref (heap e) l); [|discriminate Ht]).
  all: eexists; reflexivity.
Qed.





Lemma lower_keys_distinct (d : PyDict) (k1 k2 : string) :
  NoDup (Str.lower <$> keys d) -> k1 ∈ keys d -> k2 ∈ keys d ->
  Str.lower k1 = Str.lower k2 -> k1 = k2.
Proof.
  generalize (keys d) as ks. intros ks.
  induction ks as [|k ks IH]; intros Hnd H1 H2 E; [inversion H1|].
  cbn in Hnd. apply NoDup_cons in Hnd as [Hfirst Hrest].
  apply elem_of_cons in H1 as [->|H1]; apply elem_of_cons in H2 as [->|H2].
  - reflexivity.
  - destruct Hfirst. rewrite E. apply list_elem_of_fmap. eauto.
  - destruct Hfirst. rewrite <- E. apply list_elem_of_fmap. eauto.
  - apply IH; assumption.
Qed.


Lemma last_sent_dispatch (self : Client) (m u : string) (kw : Kwargs) (e : Env) :
  exists out : Outgoing,
    last_sent (env_of (DocuSignAlternativeSDK.request send boundary
                         generic_description self m u kw e)) = Some out
    /\ o_method out = Str.upper m
    /\ o_url out = full_url (base_url (config self)) u
    /\ o_headers out
       = requests.add_content_type
           (requests.body_content_type boundary (kw_data kw) (kw_json kw) (kw_files kw))
           (requests.merge_setting
              (if files_truthy kw
               then Dict.delitem "Content-Type" (Dict.update [] (call_headers kw e))
               else Dict.update [] (call_headers kw e))
              (session_headers (session self)))
    /\ o_params out = kw_params kw /\ o_data out = kw_data kw
    /\ o_json out = kw_json kw /\ o_files out = kw_files kw.
Proof.
  destruct (request_dispatch self m u kw e) as [h' Henv].
  eexists. rewrite Henv. unfold last_sent. cbn [trace]. rewrite last_snoc.
  repeat split.
Qed.

End SentHeaders.

(** X4: every request of a constructed client goes out with the SDK's
    [User-Agent] and with [Accept: application/json], whatever the body,
    unless the call passes a header of that name itself. *)
Theorem constructed_client_sends_default_headers
    (send : Outgoing -> TransportOutcome) (boundary : string)
    (generic_description : Z -> string)
    (cfg : SDKConfiguration) (e0 e1 : Env) (self : Client)
    (m u : string) (kw : Kwargs) (e : Env) :
  DocuSignAlternativeSDK.__init__ cfg e0 = (Return self, e1) ->
  (forall k, k ∈ keys (call_headers kw e) ->
             Str.lower k <> "user-agent" /\ Str.lower k <> "accept") ->
  sent_header "User-Agent"
    (env_of (DocuSignAlternativeSDK.request send boundary generic_description self m u kw e))
  = Some "DocuSignAlternative-Python-SDK/1.0.0"
  /\ sent_header "Accept"
       (env_of (DocuSignAlternativeSDK.request send boundary generic_description
                  self m u kw e))
     = Some "application/json".
Proof.
  intros Hinit Hcall.
  destruct (init_session _ _ _ _ Hinit) as (cfg' & _ & -> & _).
  split.
  - destruct (request_sends_session_header send boundary generic_description
                (mkClient cfg' (DocuSignAlternativeSDK._create_session cfg' e0).1)
                m u kw e "user-agent") as (out & Hout & Hlook).
    + discriminate.
    + intros k Hk. apply (Hcall k Hk).
    + unfold sent_header. rewrite Hout. unfold CIDict.get.
      change (Str.lower "User-Agent") with "user-agent".
      rewrite Hlook. cbn [session].
      rewrite create_session_other_header by discriminate.
      vm_compute. reflexivity.
  - destruct (request_sends_session_header send boundary generic_description
                (mkClient cfg' (DocuSignAlternativeSDK._create_session cfg' e0).1)
                m u kw e "accept") as (out & Hout & Hlook).
    + discriminate.
    + intros k Hk. apply (Hcall k Hk).
    + unfold sent_header. rewrite Hout. unfold CIDict.get.
      change (Str.lower "Accept") with "accept".
      rewrite Hlook. cbn [session].
      rewrite create_session_other_header by discriminate.
      vm_compute. reflexivity.
Qed.

Lemma constructed_client_sends_default_headers_witness :
  sent_header "User-Agent"
    (env_of (DocuSignAlternativeSDK.request (Sample.answer Sample.resp_200) "b"
               Sample.generic Sample.client "GET" "/v1/documents"
               (Cases.kw_headers_only 2) Cases.env))
  = Some "DocuSignAlternative-Python-SDK/1.0.0"
  /\ sent_header "Accept"
       (env_of (DocuSignAlternativeSDK.request (Sample.answer Sample.resp_200) "b"
                  Sample.generic Sample.client "GET" "/v1/documents"
                  (Cases.kw_headers_only 2) Cases.env))
     = Some "application/json".
Proof.
  apply (constructed_client_sends_default_headers (Sample.answer Sample.resp_200) "b"
           Sample.generic Sample.cfg Sample.env Sample.env1).
  - vm_compute. reflexivity.
  - intros k Hk. vm_compute in Hk.
    apply elem_of_cons in Hk as [->|Hk]; [split; discriminate|].
    apply elem_of_cons in Hk as [->|Hk]; [split; discriminate|].
    apply elem_of_nil in Hk. destruct Hk.
Defined.



(** X6: on a call that carries files, when [Content-Type] is the only
    spelling under which the caller passes a content type, if it passes
    one at all, that header is discarded: the request goes out with the
    session's content type when the session has one, and with the
    multipart content type and its boundary only when it has none. *)
Theorem upload_discards_call_content_type
    (send : Outgoing -> TransportOutcome) (boundary : string)
    (generic_description : Z -> string)
    (self : Client) (m u : string) (kw : Kwargs) (e : Env) :
  files_truthy kw = true ->
  (forall k, k ∈ keys (call_headers kw e) ->
             Str.lower k = "content-type" -> k = "Content-Type") ->
  sent_header "Content-Type"
    (env_of (DocuSignAlternativeSDK.request send boundary generic_description self m u kw e))
  = match session_headers (session self) !! "content-type" with
    | Some kv => Some kv.2
    | None => Some ("multipart/form-data; boundary=" +:+ boundary)
    end.
Proof.
  intros Hfiles Honly.
  destruct (last_sent_dispatch send boundary generic_description self m u kw e)
    as (out & Hout & _ & _ & Hheaders & _).
  unfold sent_header. rewrite Hout, Hheaders, Hfiles. unfold CIDict.get.
  change (Str.lower "Content-Type") with "content-type".
  assert (requests.merge_setting
            (Dict.delitem "Content-Type" (Dict.update [] (call_headers kw e)))
            (session_headers (session self)) !! "content-type"
          = session_headers (session self) !! "content-type") as Hmerged.
  { unfold requests.merge_setting. apply ci_update_lookup.
    intros k Hk E. apply keys_delitem in Hk as [Hk Hne]. apply Hne.
    apply Honly; [|exact E].
    apply keys_update in Hk as [Hk|Hk]; [|exact Hk].
    unfold keys in Hk. cbn in Hk. apply elem_of_nil in Hk. destruct Hk. }
  unfold requests.body_content_type. unfold files_truthy in Hfiles. rewrite Hfiles.
  destruct (session_headers (session self) !! "content-type") as [kv|] eqn:Hsession.
  - rewrite (add_content_type_keeps _ _ kv) by (rewrite Hmerged; reflexivity).
    rewrite Hmerged. reflexivity.
  - unfold requests.add_content_type, CIDict.contains.
    change (Str.lower "content-type") with "content-type".
    rewrite Hmerged.
    rewrite bool_decide_eq_false_2 by (intros [x Hx]; discriminate).
    assert (Str.truthy ("multipart/form-data; boundary=" +:+ boundary) = true) as ->
      by reflexivity.
    cbn [negb andb].
    unfold CIDict.setitem, requests.merge_setting, CIDict.t.
    change (Str.lower "Content-Type") with "content-type".
    rewrite lookup_insert_eq. reflexivity.
Qed.

Lemma upload_discards_call_content_type_witness :
  sent_header "Content-Type"
    (env_of (DocuSignAlternativeSDK.request (Sample.answer Sample.resp_200) "b"
               Sample.generic Sample.client "POST" "/v1/documents"
               (Cases.kw_upload 2) Cases.env))
  = Some "application/json".
Proof.
  rewrite (upload_discards_call_content_type (Sample.answer Sample.resp_200) "b"
             Sample.generic Sample.client "POST" "/v1/documents"
             (Cases.kw_upload 2) Cases.env).
  - vm_compute. reflexivity.
  - reflexivity.
  - intros k Hk Hlower. vm_compute in Hk.
    apply elem_of_cons in Hk as [->|Hk]; [reflexivity|].
    apply elem_of_cons in Hk as [->|Hk]; [vm_compute in Hlower; discriminate|].
    apply elem_of_nil in Hk. destruct Hk.
Defined.

(* ===================================================================== *)
(** ** Outcomes, once more *)

(** X7: a response is returned to the caller exactly when its status
    lies outside 400..599, and raised as a typed error exactly when it
    lies inside; so 1xx and 3xx responses, and statuses from 600 on, come
    back as ordinary return values. *)
Theorem request_returns_iff_not_error_status
    (send : Outgoing -> TransportOutcome) (boundary : string)
    (generic_description : Z -> string)
    (self : Client) (m u : string) (kw : Kwargs) (e : Env) (r : Response) :
  transport_reply send
    (env_of (DocuSignAlternativeSDK.request send boundary generic_description self m u kw e))
  = Some (Responded r) ->
  (result_of (DocuSignAlternativeSDK.request send boundary generic_description self m u kw e)
   = Return r
   <-> ~ (400 <= status_code r < 600)%Z)
  /\ ((exists err : TypedError,
          result_of (DocuSignAlternativeSDK.request send boundary generic_description
                       self m u kw e)
          = Raise (ApiError err))
      <-> (400 <= status_code r < 600)%Z).
Proof.
  intros Hreply.
  rewrite (request_result _ _ _ _ _ _ _ _ _ Hreply).
  unfold ok.
  destruct (Z.leb_spec 400 (status_code r)), (Z.ltb_spec (status_code r) 600);
    cbn [andb negb]; split; split;
    try (intros; lia); try discriminate; try reflexivity;
    try (intros [err Herr]; discriminate); try (intros; eexists; reflexivity).
  all: intros H1; exfalso; apply H1; lia.
Qed.

Lemma request_returns_iff_not_error_status_witness :
  ~ (exists err : TypedError,
        result_of (DocuSignAlternativeSDK.request (Sample.answer Sample.resp_304) "b"
                     Sample.generic Sample.client "GET" "/v1/documents" no_kwargs
                     Sample.env1)
        = Raise (ApiError err)).
Proof.
  intros H.
  apply (request_returns_iff_not_error_status (Sample.answer Sample.resp_304) "b"
           Sample.generic Sample.client "GET" "/v1/documents" no_kwargs Sample.env1
           Sample.resp_304) in H.
  - vm_compute in H. destruct H as [H _]. apply H. reflexivity.
  - vm_compute. reflexivity.
Defined.

Ltac not_in_classes H :=
  repeat (apply elem_of_cons in H as [H|H]; [discriminate H|]);
  apply elem_of_nil in H; destruct H.

(** X8: which error the caller sees for which [requests] exception: a
    [Timeout], [ReadTimeout] or [ConnectTimeout] is raised as
    [TimeoutError] (a connect timeout too, although it is a connection
    error as well); a [ConnectionError], [ProxyError] or [SSLError] as
    [NetworkError] with the prefix ["Network error: "]; every other
    [RequestException] as [NetworkError] with the prefix
    ["Request error: "]; an exception that is no [RequestException] is
    not caught and reaches the caller as it is. *)
Theorem request_error_by_exception_class
    (send : Outgoing -> TransportOutcome) (boundary : string)
    (generic_description : Z -> string)
    (self : Client) (m u : string) (kw : Kwargs) (e : Env) (x : Exc) :
  transport_reply send
    (env_of (DocuSignAlternativeSDK.request send boundary generic_description self m u kw e))
  = Some (Raised x) ->
  (exc_class x ∈ timeout_classes ->
   result_of (DocuSignAlternativeSDK.request send boundary generic_description self m u kw e)
   = Raise (TimeoutError "Request timeout"))
  /\ (exc_class x ∈ connection_classes ->
      result_of (DocuSignAlternativeSDK.request send boundary generic_description self m u kw e)
      = Raise (NetworkError ("Network error: " +:+ exc_str x)))
  /\ (exc_class x ∈ other_request_classes ->
      result_of (DocuSignAlternativeSDK.request send boundary generic_description self m u kw e)
      = Raise (NetworkError ("Request error: " +:+ exc_str x)))
  /\ (exc_class x = Foreign ->
      result_of (DocuSignAlternativeSDK.request send boundary generic_description self m u kw e)
      = Raise (Uncaught x)).
Proof.
  intros Hreply.
  rewrite (request_result _ _ _ _ _ _ _ _ _ Hreply).
  destruct x as [c description]. unfold isinstance. cbn [exc_class exc_str].
  unfold timeout_classes, connection_classes, other_request_classes.
  repeat split; intros H; destruct c; try reflexivity; try discriminate H;
    exfalso; not_in_classes H.
Qed.

Lemma request_error_by_exception_class_witness :
  result_of (DocuSignAlternativeSDK.request (Sample.fail ConnectTimeout "connect timed out")
               "b" Sample.generic Sample.client "GET" "/v1/documents" no_kwargs Sample.env1)
  = Raise (TimeoutError "Request timeout")
  /\ result_of (DocuSignAlternativeSDK.request (Sample.fail Foreign "TypeError") "b"
                  Sample.generic Sample.client "GET" "/v1/documents" no_kwargs Sample.env1)
     = Raise (Uncaught (mkExc Foreign "TypeError")).
Proof.
  split.
  - apply (request_error_by_exception_class
             (Sample.fail ConnectTimeout "connect timed out") "b" Sample.generic
             Sample.client "GET" "/v1/documents" no_kwargs Sample.env1
             (mkExc ConnectTimeout "connect timed out")).
    + vm_compute. reflexivity.
    + apply (bool_decide_unpack _). vm_compute. exact I.
  - apply (request_error_by_exception_class
             (Sample.fail Foreign "TypeError") "b" Sample.generic
             Sample.client "GET" "/v1/documents" no_kwargs Sample.env1
             (mkExc Foreign "TypeError")).
    + vm_compute. reflexivity.
    + reflexivity.
Defined.

Lemma lstrip_slashes (n : nat) (u : string) :
  Str.lstrip (Str.slashes n +:+ u) = Str.lstrip u.
Proof.
  induction n as [|n IH]; [reflexivity|].
  change (Str.slashes (S n) +:+ u) with (String Str.slash (Str.slashes n +:+ u)).
  cbn [Str.lstrip]. exact IH.
Qed.

(** X9: a call depends on the method only through its upper-case form
    and on the path only up to leading slashes: two calls that differ in
    the letter case of the method and in the number of slashes in front
    of the path behave identically. *)
Theorem request_ignores_method_case_and_leading_slashes
    (send : Outgoing -> TransportOutcome) (boundary : string)
    (generic_description : Z -> string)
    (self : Client) (m1 m2 u : string) (n1 n2 : nat) (kw : Kwargs) (e : Env) :
  Str.upper m1 = Str.upper m2 ->
  DocuSignAlternativeSDK.request send boundary generic_description self m1
    (Str.slashes n1 +:+ u) kw e
  = DocuSignAlternativeSDK.request send boundary generic_description self m2
      (Str.slashes n2 +:+ u) kw e.
Proof.
  intros Hm. unfold DocuSignAlternativeSDK.request, full_url.
  rewrite Hm, !lstrip_slashes. reflexivity.
Qed.

Lemma request_ignores_method_case_and_leading_slashes_witness :
  DocuSignAlternativeSDK.request (Sample.answer Sample.resp_200) "b" Sample.generic
    Sample.client "get" "v1/documents" no_kwargs Sample.env1
  = DocuSignAlternativeSDK.get (Sample.answer Sample.resp_200) "b" Sample.generic
      Sample.client "//v1/documents" no_kwargs Sample.env1.
Proof.
  apply (request_ignores_method_case_and_leading_slashes
           (Sample.answer Sample.resp_200) "b" Sample.generic Sample.client
           "get" "GET" "v1/documents" 0 2 no_kwargs Sample.env1).
  reflexivity.
Defined.

(** X10: under the retry policy of a constructed client, a response
    without a Retry-After header is retried exactly when the method is
    one of GET, HEAD, PUT, DELETE, OPTIONS, TRACE, POST (in any letter
    case) and the status is one of 429, 500, 502, 503, 504; a PATCH
    request is never retried, whatever the status and the headers. *)
Theorem constructed_client_retry_condition
    (cfg : SDKConfiguration) (e e' : Env) (self : Client) (m : string) (status : Z) :
  DocuSignAlternativeSDK.__init__ cfg e = (Return self, e') ->
  (requests.is_retry (max_retries (session self)) m status false = true
   <-> Str.upper m ∈ ["GET"; "HEAD"; "PUT"; "DELETE"; "OPTIONS"; "TRACE"; "POST"]
       /\ status ∈ [429; 500; 502; 503; 504]%Z)
  /\ (forall has_retry_after : bool,
         Str.upper m = "PATCH" ->
         requests.is_retry (max_retries (session self)) m status has_retry_after = false).
Proof.
  intros Hinit.
  destruct (init_session _ _ _ _ Hinit) as (cfg' & _ & _ & ->).
  unfold requests.is_retry, requests._is_method_retryable.
  cbn [allowed_methods status_forcelist total].
  split.
  - rewrite andb_false_r.
    destruct (bool_decide (Str.upper m ∈ _)) eqn:Hm; cbn [negb].
    + apply bool_decide_eq_true in Hm.
      destruct (bool_decide (status ∈ _)) eqn:Hs.
      * apply bool_decide_eq_true in Hs. split; [intros _|reflexivity].
        split; [|exact Hs].
        revert Hm. rewrite !elem_of_cons, !elem_of_nil. tauto.
      * apply bool_decide_eq_false in Hs. split; [discriminate|].
        intros [_ Hs']. destruct (Hs Hs').
    + apply bool_decide_eq_false in Hm. split; [discriminate|].
      intros [Hm' _]. destruct Hm.
      revert Hm'. rewrite !elem_of_cons, !elem_of_nil. tauto.
  - intros h ->. reflexivity.
Qed.

Lemma constructed_client_retry_condition_witness :
  requests.is_retry (max_retries (session Sample.client)) "patch" 503 true = false.
Proof.
  destruct (constructed_client_retry_condition Sample.cfg Sample.env Sample.env1
              Sample.client "patch" 503) as [_ Hpatch].
  - vm_compute. reflexivity.
  - apply Hpatch. reflexivity.
Defined.

(* ===================================================================== *)
(** ** Auth mutation, once more *)

Section AuthFacts.

Lemma clear_headers_eq (m : gmap string (string * string)) :
  (if CIDict.contains "Authorization" m then CIDict.delitem "Authorization" m else m)
  = base.delete "authorization" m.
Proof.
  unfold CIDict.contains, CIDict.delitem.
  change (Str.lower "Authorization") with "authorization".
  case_bool_decide as H; [reflexivity|].
  symmetry. apply delete_id. apply eq_None_not_Some. exact H.
Qed.

Lemma clear_auth_eq (self : Client) :
  DocuSignAlternativeSDK.clear_auth self
  = mkClient (set_api_key None (config self))
             (mkSession (base.delete "authorization" (session_headers (session self)))
                        (max_retries (session self))).
Proof.
  unfold DocuSignAlternativeSDK.clear_auth. rewrite clear_headers_eq. reflexivity.
Qed.

Lemma set_auth_token_eq (self : Client) (token : string) :
  DocuSignAlternativeSDK.set_auth_token self token
  = mkClient (set_api_key (Some token) (config self))
             (mkSession (<["authorization" := ("Authorization", "Bearer " +:+ token)]>
                           (session_headers (session self)))
                        (max_retries (session self))).
Proof. reflexivity. Qed.

End AuthFacts.

(** X11: how the two auth mutators compose: clearing twice is clearing
    once; of two tokens set in a row the later one wins and no trace of
    the earlier one remains; clearing after setting a token is the same
    as clearing alone; and setting a token after clearing is the same as
    setting it directly. *)
Theorem auth_mutators_compose (self : Client) (a b : string) :
  DocuSignAlternativeSDK.clear_auth (DocuSignAlternativeSDK.clear_auth self)
  = DocuSignAlternativeSDK.clear_auth self
  /\ DocuSignAlternativeSDK.set_auth_token (DocuSignAlternativeSDK.set_auth_token self a) b
     = DocuSignAlternativeSDK.set_auth_token self b
  /\ DocuSignAlternativeSDK.clear_auth (DocuSignAlternativeSDK.set_auth_token self a)
     = DocuSignAlternativeSDK.clear_auth self
  /\ DocuSignAlternativeSDK.set_auth_token (DocuSignAlternativeSDK.clear_auth self) a
     = DocuSignAlternativeSDK.set_auth_token self a.
Proof.
  rewrite !clear_auth_eq, !set_auth_token_eq. cbn [config session session_headers max_retries].
  unfold CIDict.t in *.
  rewrite delete_delete_eq, insert_insert_eq, delete_insert_eq, insert_delete_eq.
  destruct self as [[k o j bu env t r d] s]. repeat split.
Qed.

(** X12: the auth mutators touch nothing but the stored API key and the
    session's Authorization header: every other session header, the
    retry policy and every other configuration attribute, the OAuth
    settings and the JWT among them, are the same after [set_auth_token]
    and after [clear_auth]. *)
Theorem auth_mutators_frame (self : Client) (token name : string) :
  Str.lower name <> "authorization" ->
  (CIDict.get name
     (session_headers (session (DocuSignAlternativeSDK.set_auth_token self token)))
   = CIDict.get name (session_headers (session self))
   /\ max_retries (session (DocuSignAlternativeSDK.set_auth_token self token))
      = max_retries (session self)
   /\ set_api_key (api_key (config self))
        (config (DocuSignAlternativeSDK.set_auth_token self token))
      = config self)
  /\ (CIDict.get name (session_headers (session (DocuSignAlternativeSDK.clear_auth self)))
      = CIDict.get name (session_headers (session self))
      /\ max_retries (session (DocuSignAlternativeSDK.clear_auth self))
         = max_retries (session self)
      /\ set_api_key (api_key (config self))
           (config (DocuSignAlternativeSDK.clear_auth self))
         = config self).
Proof.
  intros Hname.
  rewrite clear_auth_eq, set_auth_token_eq. cbn [config session session_headers max_retries].
  unfold CIDict.get, CIDict.t in *.
  rewrite lookup_insert_ne by congruence.
  rewrite lookup_delete_ne by congruence.
  destruct self as [[k o j bu env t r d] s]. repeat split.
Qed.

Lemma auth_mutators_frame_witness :
  CIDict.get "User-Agent"
    (session_headers (session (DocuSignAlternativeSDK.clear_auth Sample.client)))
  = CIDict.get "User-Agent" (session_headers (session Sample.client)).
Proof.
  destruct (auth_mutators_frame Sample.client "X" "User-Agent") as [_ [H _]].
  - discriminate.
  - exact H.
Defined.

(* ===================================================================== *)
(** ** Dispatch *)

(** X13: [upload_file] dispatches one POST to the joined URL whose files
    payload has the single field [file] with the given content, whose
    form data is the additional data (the empty dict when none or an
    empty one is given), and which carries neither a JSON body nor query
    parameters. *)
Theorem upload_file_dispatch
    (send : Outgoing -> TransportOutcome) (boundary : string)
    (generic_description : Z -> string)
    (self : Client) (u file_data : string) (additional_data : option PyDict) (e : Env) :
  exists out : Outgoing,
    trace (env_of (DocuSignAlternativeSDK.upload_file send boundary generic_description
                     self u file_data additional_data e))
    = (trace e ++ [Sent out])%list
    /\ o_method out = "POST"
    /\ o_url out = full_url (base_url (config self)) u
    /\ o_files out = Some [("file", file_data)]
    /\ o_data out = Some (default [] additional_data)
    /\ o_json out = None
    /\ o_params out = None.
Proof.
  unfold DocuSignAlternativeSDK.upload_file, DocuSignAlternativeSDK.post.
  match goal with
  | |- context [DocuSignAlternativeSDK.request _ _ _ _ ?m ?u ?kw ?e] =>
      destruct (request_dispatch send boundary generic_description self m u kw e)
        as [h' Henv]
  end.
  eexists. rewrite Henv. cbn [trace]. split; [reflexivity|].
  cbn [o_method o_url o_files o_data o_json o_params kw_files kw_data kw_json kw_params].
  repeat split.
  destruct additional_data as [[|kv d]|]; reflexivity.
Qed.

(** X14: a call to [request] hands exactly one request to the session,
    whatever comes back: after an error status or a transport failure
    the pipeline does not send again. *)
Theorem request_dispatches_once
    (send : Outgoing -> TransportOutcome) (boundary : string)
    (generic_description : Z -> string)
    (self : Client) (m u : string) (kw : Kwargs) (e : Env) :
  exists out : Outgoing,
    trace (env_of (DocuSignAlternativeSDK.request send boundary generic_description
                     self m u kw e))
    = (trace e ++ [Sent out])%list
    /\ transport_reply send
         (env_of (DocuSignAlternativeSDK.request send boundary generic_description
                    self m u kw e))
       = Some (send out).
Proof.
  destruct (request_dispatch send boundary generic_description self m u kw e)
    as [h' Henv].
  eexists. rewrite Henv. unfold transport_reply, last_sent. cbn [trace].
  rewrite last_snoc. split; reflexivity.
Qed.

(* ===================================================================== *)
(** ** The requirements list of setup.py *)

Section RequirementsFacts.

Lemma setup_lstrip_no_leading_space (s : string) :
  setup.starts_with_space (setup.lstrip s) = false.
Proof.
  induction s as [|c s IH]; [reflexivity|].
  cbn [setup.lstrip]. destruct (setup.is_space c) eqn:E; [exact IH|].
  cbn [setup.starts_with_space]. exact E.
Qed.

Lemma setup_rstrip_no_trailing_space (s : string) :
  setup.ends_with_space (setup.rstrip s) = false.
Proof.
  induction s as [|c s IH]; [reflexivity|].
  cbn [setup.rstrip].
  destruct (setup.rstrip s) as [|d r] eqn:E.
  - destruct (setup.is_space c) eqn:Ec; cbn; [reflexivity | exact Ec].
  - cbn [setup.ends_with_space] in *. exact IH.
Qed.

Lemma setup_rstrip_keeps_head (s : string) :
  setup.starts_with_space s = false ->
  setup.starts_with_space (setup.rstrip s) = false.
Proof.
  destruct s as [|c s]; [reflexivity|].
  cbn [setup.starts_with_space setup.rstrip]. intros Hc.
  destruct (setup.rstrip s); [rewrite Hc|]; cbn; exact Hc.
Qed.

Lemma setup_strip_clean (s : string) :
  setup.starts_with_space (setup.strip s) = false
  /\ setup.ends_with_space (setup.strip s) = false.
Proof.
  unfold setup.strip. split.
  - apply setup_rstrip_keeps_head, setup_lstrip_no_leading_space.
  - apply setup_rstrip_no_trailing_space.
Qed.

Lemma space_is_no_hash (line : string) :
  setup.starts_with_space line = true -> setup.startswith_hash line = false.
Proof.
  destruct line as [|c line]; [reflexivity|].
  cbn [setup.starts_with_space setup.startswith_hash]. intros Hc.
  case_bool_decide as E; [|reflexivity]. subst c. vm_compute in Hc. discriminate.
Qed.

Lemma elem_of_requirements (lines : list string) (r : string) :
  r ∈ setup.requirements lines
  <-> exists line, line ∈ lines /\ r = setup.strip line
                   /\ setup.strip line <> "" /\ setup.startswith_hash line = false.
Proof.
  unfold setup.requirements.
  rewrite list_elem_of_fmap. split.
  - intros (line & -> & Hin). apply list_elem_of_In, filter_In in Hin as [Hin Hkeep].
    apply andb_true_iff in Hkeep as [Ht Hh]. apply negb_true_iff in Hh.
    exists line. rewrite list_elem_of_In. repeat split; try assumption.
    intros E. rewrite E in Ht. discriminate.
  - intros (line & Hin & -> & Hne & Hh). exists line. split; [reflexivity|].
    apply list_elem_of_In, filter_In. rewrite <- list_elem_of_In.
    split; [exact Hin|]. rewrite Hh.
    destruct (setup.strip line); [congruence | reflexivity].
Qed.

End RequirementsFacts.

(** X15: no entry of the requirements list is empty and none starts or
    ends with white space, whatever the lines of requirements.txt are. *)
Theorem requirements_entries_are_stripped (lines : list string) (r : string) :
  r ∈ setup.requirements lines ->
  r <> ""
  /\ setup.starts_with_space r = false
  /\ setup.ends_with_space r = false.
Proof.
  intros Hr. apply elem_of_requirements in Hr as (line & _ & -> & Hne & _).
  split; [exact Hne | apply setup_strip_clean].
Qed.

Lemma requirements_entries_are_stripped_witness :
  "urllib3>=1.26.0" <> ""
  /\ setup.starts_with_space "urllib3>=1.26.0" = false
  /\ setup.ends_with_space "urllib3>=1.26.0" = false.
Proof.
  apply (requirements_entries_are_stripped Cases.requirements_txt).
  apply (bool_decide_unpack _). vm_compute. exact I.
Defined.

(** X16: only a line whose very first character is [#] is skipped as a
    comment: a comment line with white space in front of the [#] is
    kept, and its text, [#] included, becomes an entry of the
    requirements list. *)
Theorem requirements_keep_indented_comments (lines : list string) (line : string) :
  line ∈ lines ->
  setup.starts_with_space line = true ->
  setup.startswith_hash (setup.strip line) = true ->
  setup.strip line ∈ setup.requirements lines.
Proof.
  intros Hin Hspace Hhash. apply elem_of_requirements.
  exists line. split; [exact Hin|]. split; [reflexivity|].
  split; [|apply space_is_no_hash, Hspace].
  intros E. rewrite E in Hhash. discriminate.
Qed.

Lemma requirements_keep_indented_comments_witness :
  "# pinned below" ∈ setup.requirements Cases.requirements_txt.
Proof.
  apply (requirements_keep_indented_comments Cases.requirements_txt
           (Cases.tab +:+ "# pinned below" +:+ Cases.newline)).
  - apply (bool_decide_unpack _). vm_compute. exact I.
  - reflexivity.
  - reflexivity.
Defined.

(** X17: when every comment of requirements.txt starts in the first
    column, no entry of the requirements list starts with [#]. *)
Theorem requirements_without_comments (lines : list string) (r : string) :
  (forall line, line ∈ lines -> setup.startswith_hash (setup.strip line) = true ->
                setup.startswith_hash line = true) ->
  r ∈ setup.requirements lines ->
  setup.startswith_hash r = false.
Proof.
  intros Hcol Hr.
  apply elem_of_requirements in Hr as (line & Hin & -> & _ & Hh).
  destruct (setup.startswith_hash (setup.strip line)) eqn:E; [|reflexivity].
  rewrite (Hcol line Hin E) in Hh. discriminate.
Qed.

Lemma requirements_without_comments_witness :
  setup.startswith_hash "requests>=2.28.0" = false.
Proof.
  apply (requirements_without_comments
           ["# runtime" +:+ Cases.newline; "  requests>=2.28.0" +:+ Cases.newline]).
  - intros line Hin Hhash.
    apply elem_of_cons in Hin as [->|Hin]; [reflexivity|].
    apply elem_of_cons in Hin as [->|Hin]; [vm_compute in Hhash; discriminate|].
    apply elem_of_nil in Hin. destruct Hin.
  - apply (bool_decide_unpack _). vm_compute. exact I.
Defined.

(* ===================================================================== *)
(** ** Empty headers *)

(** X18: passing an empty dict as [headers] is the same as passing no
    headers at all: the same request is sent, the same result comes
    back, and the environment ends up the same. *)
Theorem request_empty_headers_as_none
    (send : Outgoing -> TransportOutcome) (boundary : string)
    (generic_description : Z -> string)
    (self : Client) (m u : string) (kw : Kwargs) (e : Env) (l : loc) :
  kw_headers kw = Some l ->
  deref (heap e) l = [] ->
  DocuSignAlternativeSDK.request send boundary generic_description self m u kw e
  = DocuSignAlternativeSDK.request send boundary generic_description self m u
      (mkKwargs (kw_data kw) (kw_json kw) (kw_params kw) None (kw_files kw)) e.
Proof.
  intros Hl Hempty. unfold DocuSignAlternativeSDK.request.
  cbn [kw_headers kw_data kw_json kw_params kw_files]. rewrite Hl.
  cbn [DocuSignAlternativeSDK.store heap].
  rewrite deref_fresh_store, Hempty. reflexivity.
Qed.

Lemma request_empty_headers_as_none_witness :
  DocuSignAlternativeSDK.request (Sample.answer Sample.resp_200) "b" Sample.generic
    Sample.client "GET" "/v1/documents" (Cases.kw_headers_only 4) Cases.env
  = DocuSignAlternativeSDK.request (Sample.answer Sample.resp_200) "b" Sample.generic
      Sample.client "GET" "/v1/documents" no_kwargs Cases.env.
Proof.
  apply (request_empty_headers_as_none (Sample.answer Sample.resp_200) "b"
           Sample.generic Sample.client "GET" "/v1/documents"
           (Cases.kw_headers_only 4) Cases.env 4%positive).
  - reflexivity.
  - vm_compute. reflexivity.
Defined.

(* ===================================================================== *)
(** ** Facts about the mounted adapter *)

Section AdapterFacts.

Variable network : nat -> urllib3.Attempt.
Variable method : string.
Variable timeout_s : Q.

Lemma decide_retryable_failure (r : Retry) (a : urllib3.Attempt) :
  urllib3.retryable_failure r method a = true ->
  exists reason retry_after, urllib3.decide_attempt r method a = inr (reason, retry_after).
Proof.
  unfold urllib3.retryable_failure, urllib3.decide_attempt.
  destruct a as [resp|err].
  - intros H. apply andb_true_iff in H as [Hm Hs].
    unfold requests.is_retry. rewrite Hm, Hs. cbn. eauto.
  - intros H. destruct (urllib3._is_connection_error err); [eauto|].
    cbn in H. rewrite H. cbn. eauto.
Qed.

Lemma decide_final_answer (r : Retry) (resp : Response) :
  urllib3.final_answer r resp = true ->
  urllib3.decide_attempt r method (urllib3.Answered resp) = inl (urllib3.Opened resp).
Proof.
  unfold urllib3.final_answer, urllib3.decide_attempt, requests.is_retry.
  intros H. apply andb_true_iff in H as [Hs Hh].
  apply negb_true_iff in Hs. apply negb_true_iff in Hh. rewrite Hs, Hh.
  destruct (requests._is_method_retryable r method); cbn; [|reflexivity].
  rewrite andb_false_r. reflexivity.
Qed.

Lemma urlopen_go_timeouts (budget : nat) (r : Retry) (n : nat) :
  Forall (fun t => t = timeout_s)
    (urllib3.attempt_timeouts (urllib3.urlopen_go budget network method timeout_s r n).2).
Proof.
  revert r n. induction budget as [|budget IH]; intros r n; cbn [urllib3.urlopen_go].
  - destruct (urllib3.decide_attempt r method (network n)) as [o|[reason ra]];
      [|destruct (requests.is_exhausted (requests.increment r))];
      cbn; repeat constructor.
  - destruct (urllib3.decide_attempt r method (network n)) as [o|[reason ra]];
      [cbn; repeat constructor|].
    destruct (requests.is_exhausted (requests.increment r)); [cbn; repeat constructor|].
    specialize (IH (requests.increment r) (S n)).
    destruct (urllib3.urlopen_go budget network method timeout_s
                (requests.increment r) (S n)) as [o log].
    cbn in *. constructor; [reflexivity | exact IH].
Qed.

Lemma urlopen_go_all_fail (budget : nat) (r : Retry) (n : nat) :
  total r = Z.of_nat budget ->
  (forall i, urllib3.retryable_failure r method (network i) = true) ->
  urllib3.attempt_timeouts (urllib3.urlopen_go budget network method timeout_s r n).2
  = replicate (S budget) timeout_s
  /\ urllib3.backoffs (urllib3.urlopen_go budget network method timeout_s r n).2
     = urllib3._sleep_backoff r <$> seq (S n) budget
  /\ exists reason,
       (urllib3.urlopen_go budget network method timeout_s r n).1
       = urllib3.MaxRetryError reason.
Proof.
  revert r n. induction budget as [|budget IH]; intros r n Htotal Hfail;
    cbn [urllib3.urlopen_go];
    destruct (decide_retryable_failure r _ (Hfail n)) as (reason & ra & ->);
    unfold requests.is_exhausted; cbn [requests.increment total]; rewrite Htotal.
  - cbn. eauto.
  - destruct (Z.ltb_spec (Z.of_nat (S budget) - 1) 0) as [Hlt|_]; [lia|].
    destruct (IH (requests.increment r) (S n)) as (Ht & Hb & reason' & Ho).
    + cbn [requests.increment total]. lia.
    + exact Hfail.
    + cbn [requests.increment total] in *.
      replace (total r - 1)%Z with (Z.of_nat (S budget) - 1)%Z in * by lia.
      destruct (urllib3.urlopen_go budget network method timeout_s _ (S n)) as [o log].
      cbn in *. rewrite Ht, Hb. eauto.
Qed.

Lemma urlopen_go_recovers (k budget : nat) (r : Retry) (n : nat) (resp : Response) :
  total r = Z.of_nat budget -> (k <= budget)%nat ->
  (forall i, (i < k)%nat -> urllib3.retryable_failure r method (network (n + i)) = true) ->
  network (n + k) = urllib3.Answered resp ->
  urllib3.final_answer r resp = true ->
  (urllib3.urlopen_go budget network method timeout_s r n).1 = urllib3.Opened resp
  /\ urllib3.attempt_timeouts (urllib3.urlopen_go budget network method timeout_s r n).2
     = replicate (S k) timeout_s.
Proof.
  revert budget r n. induction k as [|k IH]; intros budget r n Htotal Hk Hfail Hlast Hfinal.
  - rewrite Nat.add_0_r in Hlast.
    destruct budget; cbn [urllib3.urlopen_go]; rewrite Hlast, (decide_final_answer _ _ Hfinal);
      split; reflexivity.
  - destruct budget as [|budget]; [lia|]. cbn [urllib3.urlopen_go].
    destruct (decide_retryable_failure r (network n)) as (reason & ra & ->).
    { specialize (Hfail 0%nat). rewrite Nat.add_0_r in Hfail. apply Hfail. lia. }
    unfold requests.is_exhausted. cbn [requests.increment total]. rewrite Htotal.
    destruct (Z.ltb_spec (Z.of_nat (S budget) - 1) 0) as [Hlt|_]; [lia|].
    destruct (IH budget (requests.increment r) (S n)) as [Ho Ht].
    + cbn [requests.increment total]. lia.
    + lia.
    + intros i Hi. replace (S n + i)%nat with (n + S i)%nat by lia.
      apply (Hfail (S i)). lia.
    + replace (S n + k)%nat with (n + S k)%nat by lia. exact Hlast.
    + exact Hfinal.
    + cbn [requests.increment total] in *.
      replace (total r - 1)%Z with (Z.of_nat (S budget) - 1)%Z in * by lia.
      destruct (urllib3.urlopen_go budget network method timeout_s _ (S n)) as [o log].
      cbn in *. rewrite Ht. split; [exact Ho | reflexivity].
Qed.

End AdapterFacts.

(* ===================================================================== *)
(** ** The retry policy at work *)

Section BackoffFacts.

Lemma get_backoff_time_nonneg (r : Retry) (n : nat) :
  (0 <= backoff_factor r)%Q -> (0 <= requests.get_backoff_time r n)%Q.
Proof.
  intros Hf. unfold requests.get_backoff_time.
  destruct (n <=? 1)%nat; [apply Qle_refl|].
  apply Q.min_glb; [discriminate|].
  apply Qmult_le_0_compat; [exact Hf|].
  change 0%Q with (inject_Z 0). rewrite <- Zle_Qle. apply Z.pow_nonneg. lia.
Qed.

Lemma sleep_backoff_is_backoff_time (r : Retry) (n : nat) :
  (0 <= backoff_factor r)%Q ->
  (urllib3._sleep_backoff r n == requests.get_backoff_time r n)%Q.
Proof.
  intros Hf. unfold urllib3._sleep_backoff.
  destruct (Qle_bool (requests.get_backoff_time r n) 0) eqn:E; [|reflexivity].
  apply Qle_bool_iff in E. apply Qle_antisym; [|exact E].
  apply get_backoff_time_nonneg, Hf.
Qed.

Lemma sleep_backoff_first (r : Retry) (n : nat) :
  (n <= 1)%nat -> (urllib3._sleep_backoff r n == 0)%Q.
Proof.
  intros Hn. unfold urllib3._sleep_backoff, requests.get_backoff_time.
  destruct (Nat.leb_spec n 1); [reflexivity | lia].
Qed.

Lemma sleep_backoff_milliseconds (t d : Z) (sf : list Z) (am : list string) (n : nat) :
  (0 <= d)%Z -> (2 <= n)%nat ->
  (urllib3._sleep_backoff (mkRetry t (inject_Z d / 1000) sf am) n * 1000
   == Qmin 120000 (inject_Z (d * 2 ^ (Z.of_nat n - 1))))%Q.
Proof.
  intros Hd Hn.
  rewrite sleep_backoff_is_backoff_time
    by (cbn [backoff_factor]; apply backoff_factor_nonneg, Hd).
  unfold requests.get_backoff_time, requests.DEFAULT_BACKOFF_MAX. cbn [backoff_factor].
  destruct (Nat.leb_spec n 1); [lia|].
  rewrite inject_Z_mult.
  set (a := inject_Z d). set (p := inject_Z (2 ^ (Z.of_nat n - 1))).
  assert (a / 1000 * p == a * p / 1000)%Q as -> by field.
  set (y := (a * p)%Q).
  destruct (Q.min_spec 120 (y / 1000)) as [[H1 ->]|[H1 ->]];
    destruct (Q.min_spec 120000 y) as [[H2 ->]|[H2 ->]]; try lra; try field.
  - exfalso. assert (y / 1000 == y * (1 # 1000))%Q as E by field. rewrite E in H1. lra.
  - exfalso. assert (y / 1000 == y * (1 # 1000))%Q as E by field. rewrite E in H1. lra.
Qed.

End BackoffFacts.

(** C6: the session of a constructed client is set up so that (1) every
    call dispatches a request whose timeout is timeout milliseconds, in
    seconds, and the adapter makes each of its attempts under that
    timeout; (2) a request whose attempts all fail, at network level or
    with a status of the list, is attempted 1 + retries times, with the
    backoff pauses of the policy in between, and then raises; (3) a
    request that fails on its first k attempts, k no more than retries,
    and is then answered comes back with that answer after k + 1
    attempts; (4) for a retryable method every network-level failure and
    every answer with status 429, 500, 502, 503 or 504 is retried; (5)
    the retryable methods are exactly GET, HEAD, PUT, DELETE, OPTIONS,
    TRACE and POST; (6) the backoff factor is retry_delay milliseconds
    in seconds, the pause after the n-th failure in a row is nothing for
    the first and min(120 s, retry_delay ms * 2^(n-1)) from the second
    on, and it never shrinks from one failure to the next. *)
Theorem session_retry_policy (cfg : SDKConfiguration) (e e' : Env) (self : Client) :
  DocuSignAlternativeSDK.__init__ cfg e = (Return self, e') ->
  (0 <= retries cfg)%Z -> (0 <= retry_delay cfg)%Z ->
  (forall (network : Outgoing -> nat -> urllib3.Attempt) (boundary : string)
          (generic_description : Z -> string) (m u : string) (kw : Kwargs) (e0 : Env),
      exists out : Outgoing,
        last_sent (env_of (DocuSignAlternativeSDK.request
                             (Session_send (session self) network) boundary
                             generic_description self m u kw e0)) = Some out
        /\ (o_timeout out * 1000 == inject_Z (timeout cfg))%Q
        /\ Forall (fun t => t = o_timeout out)
             (urllib3.attempt_timeouts
                (HTTPAdapter.events (max_retries (session self)) network out)))
  /\ (forall (network : Outgoing -> nat -> urllib3.Attempt) (out : Outgoing),
         (forall i, urllib3.retryable_failure (max_retries (session self))
                      (o_method out) (network out i) = true) ->
         Z.of_nat (length (urllib3.attempt_timeouts
                             (HTTPAdapter.events (max_retries (session self)) network out)))
         = (1 + retries cfg)%Z
         /\ urllib3.backoffs (HTTPAdapter.events (max_retries (session self)) network out)
            = urllib3._sleep_backoff (max_retries (session self))
                <$> seq 1 (Z.to_nat (retries cfg))
         /\ exists x : Exc, Session_send (session self) network out = Raised x)
  /\ (forall (network : Outgoing -> nat -> urllib3.Attempt) (out : Outgoing)
             (k : nat) (resp : Response),
         (Z.of_nat k <= retries cfg)%Z ->
         (forall i, (i < k)%nat ->
                    urllib3.retryable_failure (max_retries (session self))
                      (o_method out) (network out i) = true) ->
         network out k = urllib3.Answered resp ->
         urllib3.final_answer (max_retries (session self)) resp = true ->
         Session_send (session self) network out = Responded resp
         /\ length (urllib3.attempt_timeouts
                      (HTTPAdapter.events (max_retries (session self)) network out))
            = S k)
  /\ (forall m : string,
         requests._is_method_retryable (max_retries (session self)) m = true ->
         (forall err : urllib3.WireError,
             urllib3.retryable_failure (max_retries (session self)) m (urllib3.Failed err)
             = true)
         /\ (forall resp : Response,
                status_code resp ∈ [429; 500; 502; 503; 504]%Z ->
                urllib3.retryable_failure (max_retries (session self)) m
                  (urllib3.Answered resp) = true
                /\ forall has_retry_after : bool,
                     requests.is_retry (max_retries (session self)) m (status_code resp)
                       has_retry_after = true))
  /\ (forall m : string,
         requests._is_method_retryable (max_retries (session self)) m = true
         <-> Str.upper m ∈ ["GET"; "HEAD"; "PUT"; "DELETE"; "OPTIONS"; "TRACE"; "POST"])
  /\ (forall fuel : nat,
         (Z.to_nat (retries cfg) < fuel)%nat ->
         Z.of_nat (requests.sends_when_all_fail fuel (max_retries (session self)))
         = (1 + retries cfg)%Z)
  /\ (backoff_factor (max_retries (session self)) * 1000 == inject_Z (retry_delay cfg))%Q
  /\ (forall n : nat,
         (n <= 1)%nat -> (urllib3._sleep_backoff (max_retries (session self)) n == 0)%Q)
  /\ (forall n : nat,
         (2 <= n)%nat ->
         (urllib3._sleep_backoff (max_retries (session self)) n * 1000
          == Qmin 120000 (inject_Z (retry_delay cfg * 2 ^ (Z.of_nat n - 1))))%Q)
  /\ (forall n : nat,
         (urllib3._sleep_backoff (max_retries (session self)) n
          <= urllib3._sleep_backoff (max_retries (session self)) (S n))%Q)
  /\ (forall n : nat,
         (requests.get_backoff_time (max_retries (session self)) n
          <= requests.get_backoff_time (max_retries (session self)) (S n))%Q).
Proof.
  intros Hinit Hretries Hdelay.
  destruct (init_session _ _ _ _ Hinit) as (cfg' & Hv & Hself & Hpolicy).
  destruct (validate_config_keeps_policy _ _ Hv) as (Hr & Hd & Ht).
  assert (0 <= backoff_factor (max_retries (session self)))%Q as Hfactor.
  { rewrite Hpolicy, Hd. cbn [backoff_factor]. apply backoff_factor_nonneg, Hdelay. }
  assert (total (max_retries (session self)) = Z.of_nat (Z.to_nat (retries cfg)))
    as Htotal by (rewrite Hpolicy, Hr; cbn [total]; lia).
  split; [|split; [|split; [|split; [|split; [|split; [|split; [|split;
    [|split; [|split]]]]]]]]].
  - intros network boundary generic_description m u kw e0.
    destruct (last_sent_dispatch (Session_send (session self) network) boundary
                generic_description self m u kw e0) as (out & Hout & _).
    exists out. split; [exact Hout|]. split.
    + rewrite (request_timeout _ _ _ _ _ _ _ _ _ Hout).
      rewrite Hself. cbn [config]. rewrite Ht. reflexivity.
    + unfold HTTPAdapter.events, urllib3.urlopen. apply urlopen_go_timeouts.
  - intros network out Hfail.
    unfold Session_send, HTTPAdapter.send, HTTPAdapter.events, urllib3.urlopen.
    destruct (urlopen_go_all_fail (network out) (o_method out) (o_timeout out)
                (Z.to_nat (total (max_retries (session self))))
                (max_retries (session self)) 0) as (Hatt & Hback & reason & Hres).
    + lia.
    + exact Hfail.
    + rewrite Hatt, Hback, Hres, length_replicate.
      replace (Z.to_nat (total (max_retries (session self))))
        with (Z.to_nat (retries cfg)) by lia.
      split; [lia|]. split; [reflexivity|].
      destruct reason as [[d|d|d|d]|status]; eexists; reflexivity.
  - intros network out k resp Hk Hfail Hlast Hfinal.
    unfold Session_send, HTTPAdapter.send, HTTPAdapter.events, urllib3.urlopen.
    destruct (urlopen_go_recovers (network out) (o_method out) (o_timeout out) k
                (Z.to_nat (total (max_retries (session self))))
                (max_retries (session self)) 0 resp) as [Hres Hatt];
      try assumption; try lia.
    rewrite Hres, Hatt, length_replicate. split; reflexivity.
  - intros m Hm. rewrite Hpolicy in *. split.
    + intros err. unfold urllib3.retryable_failure. rewrite Hm. apply orb_true_r.
    + intros resp Hs. unfold urllib3.retryable_failure, requests.is_retry.
      rewrite Hm. cbn [negb status_forcelist andb].
      rewrite bool_decide_eq_true_2 by exact Hs. split; reflexivity.
  - intros m. rewrite Hpolicy. unfold requests._is_method_retryable.
    cbn [allowed_methods].
    rewrite bool_decide_eq_true, !elem_of_cons, !elem_of_nil. tauto.
  - intros fuel Hfuel.
    rewrite sends_when_all_fail_total by lia. lia.
  - rewrite Hpolicy, Hd. cbn [backoff_factor]. field.
  - intros n Hn. apply sleep_backoff_first, Hn.
  - intros n Hn. rewrite Hpolicy, Hd. apply sleep_backoff_milliseconds; assumption.
  - intros n. rewrite !sleep_backoff_is_backoff_time by exact Hfactor.
    apply get_backoff_time_monotone, Hfactor.
  - intros n. apply get_backoff_time_monotone, Hfactor.
Qed.

Lemma session_retry_policy_witness :
  (exists out : Outgoing,
      last_sent (env_of (DocuSignAlternativeSDK.request
                           (Session_send (session Sample.client)
                              (Wire.always (urllib3.Failed Wire.refused)))
                           "b" Sample.generic Sample.client "GET" "/v1/documents"
                           no_kwargs Sample.env1)) = Some out
      /\ (o_timeout out * 1000 == 30000)%Q
      /\ Forall (fun t => t = o_timeout out)
           (urllib3.attempt_timeouts
              (HTTPAdapter.events (max_retries (session Sample.client))
                 (Wire.always (urllib3.Failed Wire.refused)) out)))
  /\ Z.of_nat (length (urllib3.attempt_timeouts
                         (HTTPAdapter.events (max_retries (session Sample.client))
                            (Wire.always (urllib3.Failed Wire.refused))
                            Wire.get_documents)))
     = 4%Z
  /\ Session_send (session Sample.client)
       (Wire.fail_then 2 Wire.read_timeout Sample.resp_200) Wire.get_documents
     = Responded Sample.resp_200
  /\ (urllib3._sleep_backoff (max_retries (session Sample.client)) 3 * 1000
      == Qmin 120000 4000)%Q.
Proof.
  destruct (session_retry_policy Sample.cfg Sample.env Sample.env1 Sample.client)
    as (Hdispatch & Hfail & Hrecover & _ & _ & _ & _ & _ & Hpause & _).
  - vm_compute. reflexivity.
  - vm_compute. discriminate.
  - vm_compute. discriminate.
  - split; [apply Hdispatch|].
    split; [apply (Hfail (Wire.always (urllib3.Failed Wire.refused)) Wire.get_documents);
            intros i; reflexivity|].
    split; [|apply (Hpause 3%nat); lia].
    apply (Hrecover (Wire.fail_then 2 Wire.read_timeout Sample.resp_200)
             Wire.get_documents 2%nat Sample.resp_200).
    + vm_compute. discriminate.
    + intros i Hi. destruct i as [|[|i]]; [reflexivity | reflexivity | lia].
    + reflexivity.
    + vm_compute. reflexivity.
Defined.

(* ===================================================================== *)
(** ** Timeouts and retried statuses through the mounted adapter *)

Section ExhaustedRetries.

Variable network : nat -> urllib3.Attempt.
Variable method : string.
Variable timeout_s : Q.

Lemma decide_retryable_failure_reason (r : Retry) (a : urllib3.Attempt) :
  urllib3.retryable_failure r method a = true ->
  exists retry_after,
    urllib3.decide_attempt r method a
    = inr (match a with
           | urllib3.Failed err => urllib3.BecauseOf err
           | urllib3.Answered resp => urllib3.ResponseError (status_code resp)
           end, retry_after).
Proof.
  unfold urllib3.retryable_failure, urllib3.decide_attempt.
  destruct a as [resp|err].
  - intros H. apply andb_true_iff in H as [Hm Hs].
    unfold requests.is_retry. rewrite Hm, Hs. cbn. eauto.
  - intros H. destruct (urllib3._is_connection_error err); [eauto|].
    cbn in H. rewrite H. cbn. eauto.
Qed.

Lemma urlopen_go_same_failure (budget : nat) (r : Retry) (n : nat) (a : urllib3.Attempt) :
  total r = Z.of_nat budget ->
  (forall i, network i = a) ->
  urllib3.retryable_failure r method a = true ->
  (urllib3.urlopen_go budget network method timeout_s r n).1
  = urllib3.MaxRetryError
      match a with
      | urllib3.Failed err => urllib3.BecauseOf err
      | urllib3.Answered resp => urllib3.ResponseError (status_code resp)
      end.
Proof.
  revert r n. induction budget as [|budget IH]; intros r n Htotal Hsame Hfail;
    cbn [urllib3.urlopen_go]; rewrite Hsame;
    destruct (decide_retryable_failure_reason r a Hfail) as [ra ->];
    unfold requests.is_exhausted; cbn [requests.increment total]; rewrite Htotal.
  - reflexivity.
  - destruct (Z.ltb_spec (Z.of_nat (S budget) - 1) 0) as [Hlt|_]; [lia|].
    specialize (IH (requests.increment r) (S n)).
    cbn [requests.increment total] in IH.
    replace (total r - 1)%Z with (Z.of_nat (S budget) - 1)%Z in * by lia.
    destruct (urllib3.urlopen_go budget network method timeout_s _ (S n)) as [o log].
    cbn in *. apply IH; [lia | exact Hsame | exact Hfail].
Qed.

End ExhaustedRetries.

Section MountedOutcomes.

Variable network : Outgoing -> nat -> urllib3.Attempt.
Variable boundary : string.
Variable generic_description : Z -> string.

Lemma request_through_session (self : Client) (m u : string) (kw : Kwargs) (e : Env) :
  exists out : Outgoing,
    o_method out = Str.upper m
    /\ transport_reply (Session_send (session self) network)
         (env_of (DocuSignAlternativeSDK.request (Session_send (session self) network)
                    boundary generic_description self m u kw e))
       = Some (Session_send (session self) network out).
Proof.
  destruct (last_sent_dispatch (Session_send (session self) network) boundary
              generic_description self m u kw e) as (out & Hout & Hm & _).
  exists out. split; [exact Hm|]. unfold transport_reply. rewrite Hout. reflexivity.
Qed.

Lemma upper_ascii_idempotent (c : ascii) :
  Str.upper_ascii (Str.upper_ascii c) = Str.upper_ascii c.
Proof. destruct c as [[] [] [] [] [] [] [] []]; reflexivity. Qed.

Lemma upper_idempotent (m : string) : Str.upper (Str.upper m) = Str.upper m.
Proof.
  unfold Str.upper. induction m as [|c m IH]; [reflexivity|].
  cbn [Str.map]. rewrite upper_ascii_idempotent, IH. reflexivity.
Qed.

(** What a constructed client raises when the retries of its session are
    used up, or are not made. *)
Lemma mounted_adapter_outcomes (cfg : SDKConfiguration) (e0 e1 : Env) (self : Client)
    (m u : string) (kw : Kwargs) (e : Env) (d : string) :
  DocuSignAlternativeSDK.__init__ cfg e0 = (Return self, e1) ->
  (0 <= retries cfg)%Z ->
  (* a read timeout on every attempt of a retried method *)
  ((forall o n, network o n = urllib3.Failed (urllib3.ReadTimeoutError d)) ->
   Str.upper m ∈ ["HEAD"; "GET"; "PUT"; "DELETE"; "OPTIONS"; "TRACE"; "POST"] ->
   exists msg,
     result_of (DocuSignAlternativeSDK.request (Session_send (session self) network)
                  boundary generic_description self m u kw e)
     = Raise (NetworkError ("Network error: " +:+ msg)))
  (* a read timeout on a method that is not retried *)
  /\ ((forall o n, network o n = urllib3.Failed (urllib3.ReadTimeoutError d)) ->
      Str.upper m ∉ ["HEAD"; "GET"; "PUT"; "DELETE"; "OPTIONS"; "TRACE"; "POST"] ->
      result_of (DocuSignAlternativeSDK.request (Session_send (session self) network)
                   boundary generic_description self m u kw e)
      = Raise (TimeoutError "Request timeout"))
  (* a connect timeout on every attempt *)
  /\ ((forall o n, network o n = urllib3.Failed (urllib3.ConnectTimeoutError d)) ->
      result_of (DocuSignAlternativeSDK.request (Session_send (session self) network)
                   boundary generic_description self m u kw e)
      = Raise (TimeoutError "Request timeout"))
  (* a status of the force list on every attempt of a retried method *)
  /\ (forall resp : Response,
         (forall o n, network o n = urllib3.Answered resp) ->
         status_code resp ∈ [429; 500; 502; 503; 504]%Z ->
         Str.upper m ∈ ["HEAD"; "GET"; "PUT"; "DELETE"; "OPTIONS"; "TRACE"; "POST"] ->
         exists msg,
           result_of (DocuSignAlternativeSDK.request (Session_send (session self) network)
                        boundary generic_description self m u kw e)
           = Raise (NetworkError ("Request error: " +:+ msg))).
Proof.
  intros Hinit Hretries.
  destruct (init_session _ _ _ _ Hinit) as (cfg' & Hv & _ & Hpolicy).
  destruct (validate_config_keeps_policy _ _ Hv) as (Hr & _ & _).
  destruct (request_through_session self m u kw e) as (out & Hm & Hreply).
  rewrite (request_result _ _ _ _ _ _ _ _ _ Hreply).
  assert (total (max_retries (session self))
          = Z.of_nat (Z.to_nat (total (max_retries (session self))))) as Htotal
    by (rewrite Hpolicy, Hr; cbn [total]; lia).
  unfold Session_send, HTTPAdapter.send, urllib3.urlopen.
  split; [|split; [|split]].
  - intros Hnet Hmethod.
    rewrite (urlopen_go_same_failure (network out) (o_method out) (o_timeout out) _ _ _
               (urllib3.Failed (urllib3.ReadTimeoutError d)) Htotal (Hnet out)).
    + eexists. reflexivity.
    + rewrite Hpolicy, Hm. cbn. rewrite upper_idempotent.
      apply bool_decide_eq_true, Hmethod.
  - intros Hnet Hmethod.
    assert (requests._is_method_retryable (max_retries (session self)) (o_method out)
            = false) as Hno.
    { rewrite Hpolicy, Hm. cbn. rewrite upper_idempotent.
      apply bool_decide_eq_false, Hmethod. }
    destruct (Z.to_nat (total (max_retries (session self))));
      cbn [urllib3.urlopen_go]; rewrite (Hnet out);
      unfold urllib3.decide_attempt; cbn [urllib3._is_connection_error];
      rewrite Hno; reflexivity.
  - intros Hnet.
    rewrite (urlopen_go_same_failure (network out) (o_method out) (o_timeout out) _ _ _
               (urllib3.Failed (urllib3.ConnectTimeoutError d)) Htotal (Hnet out));
      reflexivity.
  - intros resp Hnet Hstatus Hmethod.
    rewrite (urlopen_go_same_failure (network out) (o_method out) (o_timeout out) _ _ _
               (urllib3.Answered resp) Htotal (Hnet out)).
    + eexists. reflexivity.
    + rewrite Hpolicy, Hm. cbn.
      rewrite upper_idempotent.
      apply andb_true_iff. split; apply bool_decide_eq_true;
        [exact Hmethod | exact Hstatus].
Qed.

End MountedOutcomes.

(** C4 fails on the code: on a constructed client, a GET whose every
    attempt runs into the read timeout does not raise [TimeoutError]. The
    session retries it, gives up with a [MaxRetryError], and the adapter
    raises that as a [ConnectionError], which [request] reports as
    [NetworkError]; all four attempts were made. The same read timeout
    on a PATCH, which the session does not retry, and a connect timeout
    on a GET do raise [TimeoutError]. *)
Theorem read_timeout_on_get_raises_network_error :
  DocuSignAlternativeSDK.__init__ Sample.cfg Sample.env
  = (Return Sample.client, Sample.env1)
  /\ result_of (DocuSignAlternativeSDK.request
                  (Session_send (session Sample.client)
                     (Wire.always (urllib3.Failed Wire.read_timeout)))
                  "b" Sample.generic Sample.client "GET" "/v1/documents" no_kwargs
                  Sample.env1)
     = Raise (NetworkError
                ("Network error: "
                 +:+ HTTPAdapter.max_retry_str "https://api.example.com/v1/documents"
                       "Read timed out."))
  /\ length (urllib3.attempt_timeouts
               (HTTPAdapter.events (max_retries (session Sample.client))
                  (Wire.always (urllib3.Failed Wire.read_timeout)) Wire.get_documents))
     = 4%nat
  /\ result_of (DocuSignAlternativeSDK.request
                  (Session_send (session Sample.client)
                     (Wire.always (urllib3.Failed Wire.read_timeout)))
                  "b" Sample.generic Sample.client "PATCH" "/v1/documents" no_kwargs
                  Sample.env1)
     = Raise (TimeoutError "Request timeout")
  /\ result_of (DocuSignAlternativeSDK.request
                  (Session_send (session Sample.client)
                     (Wire.always (urllib3.Failed Wire.connect_timeout)))
                  "b" Sample.generic Sample.client "GET" "/v1/documents" no_kwargs
                  Sample.env1)
     = Raise (TimeoutError "Request timeout").
Proof. repeat split; vm_compute; reflexivity. Qed.

(** A status the session retries never reaches [request] on a retried
    method: the adapter raises a [RetryError], which [request] reports as
    [NetworkError]. *)
Example retried_status_on_get_raises_network_error :
  result_of (DocuSignAlternativeSDK.request
               (Session_send (session Sample.client)
                  (Wire.always (urllib3.Answered Wire.resp_503)))
               "b" Sample.generic Sample.client "GET" "/v1/documents" no_kwargs
               Sample.env1)
  = Raise (NetworkError
             ("Request error: "
              +:+ HTTPAdapter.max_retry_str "https://api.example.com/v1/documents"
                    "too many error responses")).
Proof. vm_compute. reflexivity. Qed.
